(** * ODataClient: a shallow embedding of [odata-client.py] and of
      [parse_query] from [odata-utilities.py].

    The client performs HTTP GET/POST requests with one retry, an optional
    response cache keyed by URI, paged retrieval ([get_paged]) and chunked
    filter retrieval ([get_chunked]).  The network, the logger, the clock
    ([sleep]) and the cache are made explicit in a [world] that every
    operation threads through. *)

From Stdlib Require Import ZArith Ascii String List Lia Bool.
From stdpp Require Import base option list gmap strings pretty.

Set Warnings "-register-all".
Local Open Scope string_scope.
Local Open Scope Z_scope.

(** ** Python values that cross the client's boundary

    Decoded response bodies are JSON documents.  [JNull] is Python's [None]:
    [res.json()] of the body [null] and the client's own [return None] are the
    same value.  Objects keep their members in insertion order (a Python
    [dict]); the decoder never produces two members with one key. Floats are
    not modelled. *)
Inductive json : Type :=
| JNull
| JBool (b : bool)
| JNum (z : Z)
| JStr (s : string)
| JArr (items : list json)
| JObj (members : list (string * json)).

(** What [requests] hands back for one request that reached the server:
    [json_body] is the outcome of [res.json()], [None] when the body does not
    decode. *)
Record response : Type := {
  status_code : Z;
  content : string;
  json_body : option json
}.

(** Exception classes the code raises, catches or lets through.  An
    [HTTPError] comes from [res.raise_for_status()] and carries that [res]. *)
Inductive exn : Type :=
| ReqConnError
| Timeout
| JSONDecodeError
| HTTPError (res : response)
| AttributeError
| ValueError (msg : string)
| KeyError (key : string)
| TypeError
| RuntimeError (msg : string)
| ZeroDivisionError
| OtherException (name : string).

Inductive result (A : Type) : Type :=
| Ret (a : A)
| Raise (e : exn).
Arguments Ret {A} a.
Arguments Raise {A} e.

(** Python truthiness, as used by [if cached_value:] and [if not response:]. *)
Definition truthy (v : json) : bool :=
  match v with
  | JNull => false
  | JBool b => b
  | JNum z => negb (z =? 0)
  | JStr s => negb (String.eqb s "")
  | JArr items => match items with [] => false | _ => true end
  | JObj members => match members with [] => false | _ => true end
  end.

(** [d[key]] on a dict held as an ordered member list. *)
Fixpoint dict_get {V : Type} (key : string) (d : list (string * V)) : option V :=
  match d with
  | [] => None
  | (k, v) :: rest => if String.eqb k key then Some v else dict_get key rest
  end.

(** [d[key] = v]: an existing key keeps its position, a new key goes last. *)
Fixpoint dict_set {V : Type} (key : string) (v : V) (d : list (string * V))
  : list (string * V) :=
  match d with
  | [] => [(key, v)]
  | (k, w) :: rest =>
      if String.eqb k key then (k, v) :: rest else (k, w) :: dict_set key v rest
  end.

(** [key in d]. *)
Definition dict_mem {V : Type} (key : string) (d : list (string * V)) : bool :=
  match dict_get key d with Some _ => true | None => false end.

(** [response[key]] for a string key: only a dict can be indexed by a string;
    a missing key is a [KeyError], any other receiver a [TypeError]. *)
Definition subscript (v : json) (key : string) : result json :=
  match v with
  | JObj members =>
      match dict_get key members with
      | Some x => Ret x
      | None => Raise (KeyError key)
      end
  | _ => Raise TypeError
  end.

Fixpoint chars (s : string) : list json :=
  match s with
  | EmptyString => []
  | String c rest => JStr (String c EmptyString) :: chars rest
  end.

(** [len(v)]. *)
Definition py_len (v : json) : result nat :=
  match v with
  | JStr s => Ret (String.length s)
  | JArr items => Ret (length items)
  | JObj members => Ret (length members)
  | _ => Raise TypeError
  end.

(** The elements that [some_list += v] appends. *)
Definition py_iter (v : json) : result (list json) :=
  match v with
  | JStr s => Ret (chars s)
  | JArr items => Ret items
  | JObj members => Ret (map (fun kv => JStr (fst kv)) members)
  | _ => Raise TypeError
  end.

(** ** Strings *)

(** [str(n)] for an integer. *)
Definition str_Z (z : Z) : string := pretty z.
Definition str_nat (n : nat) : string := pretty n.

(** [sep.join(parts)]. *)
Fixpoint join (sep : string) (parts : list string) : string :=
  match parts with
  | [] => ""
  | [p] => p
  | p :: rest => p ++ sep ++ join sep rest
  end.

(** [s.split(c)] for a one-character separator: never empty. *)
Fixpoint split (c : ascii) (s : string) : list string :=
  match s with
  | EmptyString => [""]
  | String a rest =>
      if Ascii.eqb a c then "" :: split c rest
      else match split c rest with
           | [] => [String a ""]
           | p :: ps => String a p :: ps
           end
  end.

(** [s.split(c, 1)]: cut at the first occurrence, [None] when there is none
    (Python then returns the one-element list [[s]]). *)
Fixpoint split_once (c : ascii) (s : string) : option (string * string) :=
  match s with
  | EmptyString => None
  | String a rest =>
      if Ascii.eqb a c then Some ("", rest)
      else match split_once c rest with
           | Some (k, v) => Some (String a k, v)
           | None => None
           end
  end.

(** [template.replace('{}', new)]: every occurrence, left to right, not
    overlapping. *)
Fixpoint replace_braces (new : string) (template : string) : string :=
  match template with
  | EmptyString => ""
  | String a rest =>
      match rest with
      | String b rest' =>
          if Ascii.eqb a "{" && Ascii.eqb b "}"
          then new ++ replace_braces new rest'
          else String a (replace_braces new rest)
      | EmptyString => String a ""
      end
  end.

(** [s.strip('/')]. *)
Fixpoint lstrip (c : ascii) (s : string) : string :=
  match s with
  | EmptyString => ""
  | String a rest => if Ascii.eqb a c then lstrip c rest else s
  end.

Fixpoint rstrip (c : ascii) (s : string) : string :=
  match s with
  | EmptyString => ""
  | String a rest =>
      match rstrip c rest with
      | EmptyString => if Ascii.eqb a c then "" else String a ""
      | r => String a r
      end
  end.

Definition strip (c : ascii) (s : string) : string := rstrip c (lstrip c s).

Definition nl : string := String (ascii_of_nat 10) "".

(** ** The world outside the client *)

Inductive request : Type :=
| Get (url : string)
| Post (url : string) (headers : json) (payload : json) (timeout : Z).

(** Ways the transport itself fails, before any response exists. *)
Inductive failure : Type :=
| Refused
| TimedOut
| Broken (name : string).

Inductive reply : Type :=
| Response (res : response)
| Fails (f : failure).

Definition exn_of (f : failure) : exn :=
  match f with
  | Refused => ReqConnError
  | TimedOut => Timeout
  | Broken name => OtherException name
  end.

(** [type(exc).__name__]. *)
Definition exn_name (e : exn) : string :=
  match e with
  | ReqConnError => "ConnectionError"
  | Timeout => "Timeout"
  | JSONDecodeError => "JSONDecodeError"
  | HTTPError _ => "HTTPError"
  | AttributeError => "AttributeError"
  | ValueError _ => "ValueError"
  | KeyError _ => "KeyError"
  | TypeError => "TypeError"
  | RuntimeError _ => "RuntimeError"
  | ZeroDivisionError => "ZeroDivisionError"
  | OtherException name => name
  end.

(** One logger call: the level and the pieces of the formatted message. *)
Inductive level : Type := INFO | ERROR.

Inductive piece : Type :=
| Text (s : string)
| OfExn (e : exn)
| OfJson (j : json)
| OfBytes (raw : string)
| OfResponse (res : response).

Definition log_record : Type := level * list piece.

(** Modelled from the spec: the shared cache [RedisCache], whose class is not
    part of the sources.  The spec gives its interface, [retrieve(key)]
    returning the value or absence and [store(key, value, ttl-hours)]; entries
    neither expire nor get evicted inside one run of the model. *)
Record world : Type := {
  cache : gmap string (json * Z);
  sent : list request;
  sleeps : list Z;
  log : list log_record
}.

Definition retrieve (key : string) (w : world) : json :=
  match cache w !! key with
  | Some (v, _) => v
  | None => JNull
  end.

Definition store (key : string) (value : json) (ttl : Z) (w : world) : world :=
  {| cache := <[key := (value, ttl)]> (cache w);
     sent := sent w; sleeps := sleeps w; log := log w |}.

Definition sleep (seconds : Z) (w : world) : world :=
  {| cache := cache w; sent := sent w;
     sleeps := sleeps w ++ [seconds]; log := log w |}.

Definition logger (lv : level) (msg : list piece) (w : world) : world :=
  {| cache := cache w; sent := sent w; sleeps := sleeps w;
     log := log w ++ [(lv, msg)] |}.

Definition SLEEP_TIME : Z := 60.
Definition RETRIES : nat := 1.

(** ** The client *)

Record ODataClient : Type := {
  _session : option (string * string);
  query_cache_timeout_hours : Z;
  cache_query_requests : bool
}.

Definition auth (self : ODataClient) (username password : string) : ODataClient :=
  {| _session := Some (username, password);
     query_cache_timeout_hours := query_cache_timeout_hours self;
     cache_query_requests := cache_query_requests self |}.

(** [__init__] calls [auth] and then assigns [self._session = None]. *)
Definition __init__ (username password : string) : ODataClient :=
  let self := auth {| _session := None; query_cache_timeout_hours := 0;
                      cache_query_requests := false |} username password in
  {| _session := None;
     query_cache_timeout_hours := 48;
     cache_query_requests := false |}.

(** [res.raise_for_status()] raises for 4xx and 5xx. *)
Definition raises_for_status (res : response) : bool :=
  (400 <=? status_code res) && (status_code res <? 600).

(** [self.cache_query_requests or use_cache and use_cache != False], read as
    a condition; [use_cache] is [None], [True] or [False]. *)
Definition effective_use_cache (flag : bool) (use_cache : option bool) : bool :=
  flag || (match use_cache with Some b => b | None => false end
           && match use_cache with Some false => false | _ => true end).

(** The permission hint, naming [self._session.auth[0]].  It is only logged
    after a response came back, hence with a session in place. *)
Definition unauthorized (self : ODataClient) : list piece :=
  [Text "Unauthorized. Ensure '";
   Text (match _session self with Some (user, _) => user | None => "" end);
   Text "' has CNS permissions and the password in config.ini is correct"].

(** ** Query strings *)

(** The fields of [urllib.parse.ParseResult]. *)
Record ParseResult : Type := {
  scheme : string;
  netloc : string;
  path : string;
  params : string;
  query : string;
  fragment : string
}.

Definition dq : string := String (ascii_of_nat 34) "".

(** The loop of [parse_query] over [url.query.split('&')]: an empty piece is
    skipped, a piece without [=] cannot be unpacked into [[key, value]]. *)
Fixpoint parse_params (pieces : list string) (query_dict : list (string * string))
  : result (list (string * string)) :=
  match pieces with
  | [] => Ret query_dict
  | param :: rest =>
      if String.eqb param "" then parse_params rest query_dict
      else match split_once "=" param with
           | Some (key, value) => parse_params rest (dict_set key value query_dict)
           | None => Raise (ValueError "not enough values to unpack (expected 2, got 1)")
           end
  end.

Definition parse_query (url : ParseResult) : result (list (string * string)) :=
  parse_params (split "&" (query url)) [].

(** [pydash.arrays.chunk(array, size)]:
    [chunks = int(ceil(len(array) / float(size)))] slices
    [array[i * size : (i + 1) * size]].  The case [size = 0] follows that
    formula, whose division raises; the repository pins no version of
    pydash, and a version that returns the empty list for every size below
    one differs there, and only there.  No statement below rests on that
    case. *)
Definition chunk {A : Type} (array : list A) (size : Z) : result (list (list A)) :=
  if size =? 0 then Raise ZeroDivisionError
  else if size <? 0 then Ret []
  else
    let n := Z.to_nat size in
    let chunks := ((length array + n - 1) / n)%nat in
    Ret (map (fun i => take n (drop (i * n) array)) (seq 0 chunks)).

(** The loop of [get_chunked] that writes the query string back. *)
Fixpoint build_query (items : list (string * string)) (first_key : bool)
    (new_str : string) : string :=
  match items with
  | [] => new_str
  | (k, v) :: rest =>
      if first_key then build_query rest false (new_str ++ k ++ "=" ++ v)
      else build_query rest false (new_str ++ "&" ++ k ++ "=" ++ v)
  end.

(** The [$filter] of one batch merged into a copy of the parsed query. *)
Definition merge_filter (query : list (string * string)) (filters : list string)
  : list (string * string) :=
  match dict_get "$filter" query with
  | Some existing =>
      dict_set "$filter" ("(" ++ existing ++ ") and (" ++ join " or " filters ++ ")") query
  | None => dict_set "$filter" (join " or " filters) query
  end.

(** [total_records == -1]. *)
Definition is_minus_one (total_records : json) : bool :=
  match total_records with
  | JNum z => z =? -1
  | _ => false
  end.

(** [len(results) < total_records]: an integer compares with a number or a
    boolean only. *)
Definition len_lt (results : list json) (total_records : json) : result bool :=
  match total_records with
  | JNum z => Ret (Z.of_nat (length results) <? z)
  | JBool b => Ret (Z.of_nat (length results) <? (if b then 1 else 0))
  | _ => Raise TypeError
  end.

(** The [while] condition of [get_paged]. *)
Definition more_pages (results : list json) (total_records : json) : result bool :=
  if is_minus_one total_records then Ret true else len_lt results total_records.

Definition is_None (v : json) : bool :=
  match v with JNull => true | _ => false end.

Definition paging_url (url query_separator : string) (page_size : Z)
    (results : list json) : string :=
  url ++ query_separator ++ "$top=" ++ str_Z page_size
      ++ "&$skip=" ++ str_nat (length results) ++ "&$count=true".

Definition envelope (results : list json) : json := JObj [("value", JArr results)].

(** [f"{scheme}://{net_loc}{path}?"]. *)
Definition base_url_of (parsed_url : ParseResult) : string :=
  scheme parsed_url ++ "://" ++ netloc parsed_url ++ path parsed_url ++ "?".

(** ['?' if parsed_url.query == '' else '&']. *)
Definition query_separator_of (parsed_url : ParseResult) : string :=
  if String.eqb (query parsed_url) "" then "?" else "&".

(** ** A concrete [urlparse] and concrete worlds for the examples *)

Definition scheme_char (a : ascii) : bool :=
  let n := nat_of_ascii a in
  ((97 <=? n) && (n <=? 122) || (48 <=? n) && (n <=? 57)
   || Ascii.eqb a "+" || Ascii.eqb a "-" || Ascii.eqb a ".")%nat.

Fixpoint all_chars (p : ascii -> bool) (s : string) : bool :=
  match s with
  | EmptyString => true
  | String a rest => p a && all_chars p rest
  end.

(** The network location ends at the first [/], [?] or [#]. *)
Fixpoint cut_netloc (s : string) : string * string :=
  match s with
  | EmptyString => ("", "")
  | String a rest =>
      if Ascii.eqb a "/" || Ascii.eqb a "?" || Ascii.eqb a "#" then ("", s)
      else let (n, r) := cut_netloc rest in (String a n, r)
  end.

(** [urlparse] on URLs of the shape [scheme://netloc/path?query#fragment]
    with a lower-case scheme and no [;params]. *)
Definition urlparse_basic (url : string) : result ParseResult :=
  let (sch, rest) :=
    match split_once ":" url with
    | Some (String a s, r) =>
        if all_chars scheme_char (String a s) then (String a s, r) else ("", url)
    | _ => ("", url)
    end in
  let (loc, rest2) :=
    match rest with
    | String "/" (String "/" r) => cut_netloc r
    | _ => ("", rest)
    end in
  let (rest3, frag) :=
    match split_once "#" rest2 with
    | Some (a, b) => (a, b)
    | None => (rest2, "")
    end in
  let (pth, q) :=
    match split_once "?" rest3 with
    | Some (a, b) => (a, b)
    | None => (rest3, "")
    end in
  Ret {| scheme := sch; netloc := loc; path := pth; params := "";
         query := q; fragment := frag |}.

Definition blank : world := {| cache := ∅; sent := []; sleeps := []; log := [] |}.

Definition ok (body : json) : reply :=
  Response {| status_code := 200; content := ""; json_body := Some body |}.

Definition page (records : list json) (count : Z) : json :=
  JObj [("@odata.count", JNum count); ("value", JArr records)].

Definition alice : ODataClient :=
  auth (__init__ "alice" "secret") "alice" "secret".

Definition caching (self : ODataClient) : ODataClient :=
  {| _session := _session self;
     query_cache_timeout_hours := query_cache_timeout_hours self;
     cache_query_requests := true |}.

Definition students_url : string := "https://host/ds/odata/Students".

Definition server_down : list request -> request -> reply :=
  fun _ _ => Fails Refused.

(** Every request is answered at once with the same one-record listing. *)
Definition server_up : list request -> request -> reply :=
  fun _ _ => ok (page [JNum 1] 1).

(** The first request ever sent times out, later ones are answered. *)
Definition server_slow_start : list request -> request -> reply :=
  fun history _ =>
    match history with
    | [] => Fails TimedOut
    | _ => ok (page [JNum 1] 1)
    end.

(** Every request is refused with status 403 and an HTML error page. *)
Definition forbidden_html : response :=
  {| status_code := 403; content := "<html>Forbidden</html>"; json_body := None |}.

Definition server_forbidden : list request -> request -> reply :=
  fun _ _ => Response forbidden_html.

Definition forbidden_json : response :=
  {| status_code := 403; content := "{}";
     json_body := Some (JObj [("error", JStr "forbidden")]) |}.

Definition server_forbidden_json : list request -> request -> reply :=
  fun _ _ => Response forbidden_json.

Definition not_found : reply :=
  Response {| status_code := 404; content := ""; json_body := None |}.

(** A listing served two records at a time: the first page holds records 1
    and 2 and reports [total]; what comes back for the second page is left
    to the scenario. *)
Definition listing_server (total : Z) (second : reply)
  : list request -> request -> reply :=
  fun _ rq =>
    match rq with
    | Get u =>
        if String.eqb u "https://host/ds/odata/Students?$top=2&$skip=0&$count=true"
        then ok (page [JNum 1; JNum 2] total)
        else if String.eqb u "https://host/ds/odata/Students?$top=2&$skip=2&$count=true"
        then second
        else not_found
    | _ => not_found
    end.

(** The server of the example [get_chunked(url, "Id eq {}", [1,2,3,4,5], 2)]. *)
Definition server_ids : list request -> request -> reply :=
  fun _ rq =>
    match rq with
    | Get u =>
        if String.eqb u "https://host/ds/odata/Students?$filter=Id eq 1 or Id eq 2"
        then ok (JObj [("value", JArr [JStr "one"; JStr "two"])])
        else if String.eqb u "https://host/ds/odata/Students?$filter=Id eq 3 or Id eq 4"
        then ok (JObj [("value", JArr [JStr "three"; JStr "four"])])
        else if String.eqb u "https://host/ds/odata/Students?$filter=Id eq 5"
        then ok (JObj [("value", JArr [JStr "five"])])
        else not_found
    | _ => not_found
    end.


(** A cache that already holds a listing for [students_url]. *)
Definition warm : world := store students_url (page [JNum 7] 1) 48 blank.

(** Routine steps of the concrete runs. *)
Ltac run_get :=
  lazymatch goal with
  | |- exists w1, ?g = (_, w1) /\ _ => exists (snd g); split; [vm_compute; reflexivity|]
  end.

Ltac students_pageable :=
  split; [reflexivity|exists []; repeat split; reflexivity].

(** ** Helpers of [odata-utilities.py] *)

(** [pydash.get(obj, path)] for a dotted path of names on a decoded body:
    each name is looked up in a dict; a missing name, or a value that is not
    a dict, gives the default [None]. *)
Fixpoint get_path (obj : json) (names : list string) : json :=
  match names with
  | [] => obj
  | name :: rest =>
      match obj with
      | JObj members =>
          match dict_get name members with
          | Some v => get_path v rest
          | None => JNull
          end
      | _ => JNull
      end
  end.

Definition pydash_get (obj : json) (path : string) : json :=
  get_path obj (split "." path).

Definition status_category : string :=
  "SchoolStatus.SystemSchoolStatus.SystemStatusCategory".

(** [get(enrollment, '...SystemStatusCategory') in ('A', 'Y')]. *)
Definition attending (enrollment : json) : bool :=
  match pydash_get enrollment status_category with
  | JStr s => String.eqb s "A" || String.eqb s "Y"
  | _ => false
  end.

(** The loop that rejects an enrollment without a status category. *)
Fixpoint check_categories (enrollment_periods : list json) : result unit :=
  match enrollment_periods with
  | [] => Ret tt
  | enrollment :: rest =>
      if negb (truthy (pydash_get enrollment status_category))
      then Raise (KeyError
             "There is an enrollment that does not contain a System Status Category.")
      else check_categories rest
  end.

(** The loop over [enrollment_periods[1:]] that stops at the first
    attending enrollment. *)
Fixpoint first_attending (enrollments : list json) : option json :=
  match enrollments with
  | [] => None
  | enrollment :: rest =>
      if attending enrollment then Some enrollment else first_attending rest
  end.

(** [enrollment_periods] itself when it is a list, [[enrollment_periods]]
    when it is not. *)
Definition as_list (enrollment_periods : json) : list json :=
  match enrollment_periods with
  | JArr items => items
  | other => [other]
  end.

Definition get_current_attending_enrollment (enrollment_periods : json)
  : result json :=
  if negb (truthy enrollment_periods)
  then Raise (ValueError "No enrollments were provided.")
  else
    let enrollment_periods := as_list enrollment_periods in
    match check_categories enrollment_periods with
    | Raise e => Raise e
    | Ret _ =>
        match enrollment_periods with
        | [] => Raise (OtherException "IndexError")
        | current_enrollment :: rest =>
            if negb (attending current_enrollment) then
              match first_attending rest with
              | Some enrollment => Ret enrollment
              | None => Ret current_enrollment
              end
            else Ret current_enrollment
        end
    end.

(** An enrollment record with the given status category. *)
Definition enrollment (id : Z) (category : string) : json :=
  JObj [("Id", JNum id);
        ("SchoolStatus",
         JObj [("SystemSchoolStatus",
                JObj [("SystemStatusCategory", JStr category)])])].

(** ** More scenarios *)

(** An attempt that produces an exception: the transport fails, the status
    is an error, or the body does not decode. *)
Definition failing (rp : reply) : Prop :=
  match rp with
  | Fails _ => True
  | Response res => raises_for_status res = true \/ json_body res = None
  end.

(** A failing attempt whose exception [get] handles itself. *)
Definition handled (rp : reply) : Prop :=
  match rp with
  | Fails Refused | Fails TimedOut => True
  | Fails (Broken _) => False
  | Response res => raises_for_status res = true \/ json_body res = None
  end.

(** The transport raises an exception of a class the client does not name. *)
Definition server_broken : list request -> request -> reply :=
  fun _ _ => Fails (Broken "TooManyRedirects").


(** [c in s]. *)
Fixpoint contains (c : ascii) (s : string) : bool :=
  match s with
  | EmptyString => false
  | String a rest => Ascii.eqb a c || contains c rest
  end.

(** A parameter that the split/join query syntax can carry: no [&] or [=]
    in the name, no [&] in the value. *)
Definition plain (kv : string * string) : Prop :=
  contains "&" (fst kv) = false /\ contains "=" (fst kv) = false
  /\ contains "&" (snd kv) = false.

Definition unpack_message : string :=
  "not enough values to unpack (expected 2, got 1)".

(** Only the first batch of the example is answered; any other request is
    refused. *)
Definition server_first_batch_only : list request -> request -> reply :=
  fun _ rq =>
    match rq with
    | Get u =>
        if String.eqb u "https://host/ds/odata/Students?$filter=Id eq 1 or Id eq 2"
        then ok (JObj [("value", JArr [JStr "one"; JStr "two"])])
        else Fails Refused
    | _ => Fails Refused
    end.

(** A cache that holds an empty object for [students_url]. *)
Definition stale : world := store students_url (JObj []) 48 blank.

(** The pieces of the query string of a request that went out. *)
Definition parameters_sent (rq : request) : list string :=
  match rq with
  | Get u | Post u _ _ _ =>
      match urlparse_basic u with
      | Ret parsed_url => split "&" (query parsed_url)
      | Raise _ => []
      end
  end.

(** ** The operations of the client *)

Section Network.

(** The server answers a request knowing every request sent before it. *)
Variable server : list request -> request -> reply.

(** [urllib.parse.urlparse], which raises [ValueError] on some malformed
    network locations. *)
Variable urlparse : string -> result ParseResult.

(** The values that [get_chunked] chunks, and their [str()]. *)
Variable V : Type.
Variable str : V -> string.

Definition http (rq : request) (w : world) : reply * world :=
  (server (sent w) rq,
   {| cache := cache w; sent := sent w ++ [rq];
      sleeps := sleeps w; log := log w |}).

(** The [try] block of [get]. *)
Definition try_get (self : ODataClient) (uri : string) (_use_cache : bool)
    (w : world) : result json * world :=
  match _session self with
  | None => (Raise AttributeError, w)
  | Some _ =>
      let (rp, w1) := http (Get (strip "/" uri)) w in
      match rp with
      | Fails f => (Raise (exn_of f), w1)
      | Response res =>
          if raises_for_status res then (Raise (HTTPError res), w1)
          else match json_body res with
               | None => (Raise JSONDecodeError, w1)
               | Some body =>
                   (Ret body,
                    if _use_cache
                    then store uri body (query_cache_timeout_hours self) w1
                    else w1)
               end
      end
  end.

(** The handlers of [get] once no retry is left. *)
Definition get_give_up (self : ODataClient) (uri : string) (e : exn)
    (w : world) : result json * world :=
  match e with
  | ReqConnError | Timeout | JSONDecodeError =>
      let w1 := logger ERROR [OfExn e] w in
      (Ret JNull,
       logger ERROR [Text (exn_name e ++ " occurred while making OData GET " ++ uri)] w1)
  | HTTPError res =>
      let w1 := logger ERROR [OfExn e] w in
      let w2 := match json_body res with
                | Some j => logger ERROR [OfJson j] w1
                | None => logger ERROR [OfBytes (content res)] w1
                end in
      (Ret JNull,
       if status_code res =? 403 then logger ERROR (unauthorized self) w2 else w2)
  | _ => (Raise e, w)
  end.

Fixpoint get_loop (self : ODataClient) (uri : string) (_use_cache : bool)
    (current_retries : nat) (w : world) : result json * world :=
  match try_get self uri _use_cache w with
  | (Ret body, w1) => (Ret body, w1)
  | (Raise e, w1) =>
      match current_retries with
      | S n =>
          let w2 := logger INFO
            [Text ("GET request failed. Retrying after " ++ str_Z SLEEP_TIME
                   ++ " seconds...")] w1 in
          get_loop self uri _use_cache n (sleep SLEEP_TIME w2)
      | O => get_give_up self uri e w1
      end
  end.

Definition get (self : ODataClient) (uri : string) (use_cache : option bool)
    (w : world) : result json * world :=
  let _use_cache := effective_use_cache (cache_query_requests self) use_cache in
  if _use_cache then
    let cached_value := retrieve uri w in
    if truthy cached_value then (Ret cached_value, w)
    else get_loop self uri _use_cache RETRIES w
  else get_loop self uri _use_cache RETRIES w.

(** The [try] block of [post]. *)
Definition try_post (self : ODataClient) (uri command : string)
    (payload headers : json) (w : world) : result json * world :=
  match _session self with
  | None => (Raise AttributeError, w)
  | Some _ =>
      let (rp, w1) :=
        http (Post (strip "/" uri ++ "/" ++ command) headers payload 30) w in
      match rp with
      | Fails f => (Raise (exn_of f), w1)
      | Response res =>
          if raises_for_status res then (Raise (HTTPError res), w1)
          else match json_body res with
               | None => (Raise JSONDecodeError, w1)
               | Some body => (Ret body, w1)
               end
      end
  end.

(** The handlers of [post] once no retry is left.  The [HTTPError] handler
    formats [res.json()] into a log line before it looks at the status. *)
Definition post_give_up (self : ODataClient) (uri command : string)
    (payload : json) (e : exn) (w : world) : result json * world :=
  match e with
  | HTTPError res =>
      let w1 := logger ERROR
        [Text "HTTP Error during POST: "; OfExn e; Text nl;
         Text (exn_name e ++ " occurred while making POST " ++ uri ++ "/" ++ command)] w in
      let w2 := logger INFO [Text "Payload: "; OfJson payload] w1 in
      match json_body res with
      | None => (Raise JSONDecodeError, w2)
      | Some j =>
          let w3 := logger INFO
            [Text "Response: "; OfResponse res; Text nl;
             Text "Response Body: "; OfJson j] w2 in
          if status_code res =? 403
          then (Raise (RuntimeError "Access was denied"),
                logger ERROR (unauthorized self) w3)
          else (Ret JNull, w3)
      end
  | _ =>
      let w1 := logger ERROR
        [Text (exn_name e ++ " occurred while making POST " ++ uri ++ "/" ++ command
               ++ ": " ++ nl ++ " "); OfExn e] w in
      (Ret JNull, logger INFO [Text "Payload: "; OfJson payload] w1)
  end.

Fixpoint post_loop (self : ODataClient) (uri command : string)
    (payload headers : json) (current_retries : nat) (w : world)
  : result json * world :=
  match try_post self uri command payload headers w with
  | (Ret body, w1) => (Ret body, w1)
  | (Raise e, w1) =>
      match current_retries with
      | S n =>
          let w2 := logger INFO
            [Text ("POST request failed. Retrying after " ++ str_Z SLEEP_TIME
                   ++ " seconds...")] w1 in
          post_loop self uri command payload headers n (sleep SLEEP_TIME w2)
      | O => post_give_up self uri command payload e w1
      end
  end.

Definition post (self : ODataClient) (uri command : string)
    (payload headers : json) (w : world) : result json * world :=
  post_loop self uri command payload headers RETRIES w.

(** The [while] loop of [get_paged].  [fuel] bounds the number of
    iterations: nothing in the code stops a server that keeps sending
    non-empty pages with [@odata.count] equal to [-1]. *)
Fixpoint get_paged_loop (fuel : nat) (self : ODataClient)
    (url query_separator : string) (page_size : Z) (use_cache : option bool)
    (results : list json) (total_records : json) (w : world)
  : option (result json * world) :=
  match fuel with
  | O => None
  | S fuel' =>
      match more_pages results total_records with
      | Raise e => Some (Raise e, w)
      | Ret false => Some (Ret (envelope results), w)
      | Ret true =>
          match get self (paging_url url query_separator page_size results)
                    use_cache w with
          | (Raise e, w1) => Some (Raise e, w1)
          | (Ret response, w1) =>
              if is_None response then Some (Ret JNull, w1)
              else
                match subscript response "value" with
                | Raise e => Some (Raise e, w1)
                | Ret value =>
                    match py_len value with
                    | Raise e => Some (Raise e, w1)
                    | Ret O => Some (Ret (envelope results), w1)
                    | Ret (S _) =>
                        match py_iter value with
                        | Raise e => Some (Raise e, w1)
                        | Ret items =>
                            if is_minus_one total_records then
                              match subscript response "@odata.count" with
                              | Raise e => Some (Raise e, w1)
                              | Ret count =>
                                  get_paged_loop fuel' self url query_separator
                                    page_size use_cache (results ++ items) count w1
                              end
                            else
                              get_paged_loop fuel' self url query_separator
                                page_size use_cache (results ++ items)
                                total_records w1
                        end
                    end
                end
          end
      end
  end.

Definition paging_error (url : string) : string :=
  "URL cannot include $top, $skip, or $count in the query string when using get_paged() - called with "
  ++ dq ++ url ++ dq.

Definition get_paged (fuel : nat) (self : ODataClient) (url : string)
    (page_size : Z) (use_cache : option bool) (w : world)
  : option (result json * world) :=
  match urlparse url with
  | Raise e => Some (Raise e, w)
  | Ret parsed_url =>
      let query_separator := query_separator_of parsed_url in
      match parse_query parsed_url with
      | Raise e => Some (Raise e, w)
      | Ret query =>
          if dict_mem "$top" query || dict_mem "$skip" query || dict_mem "$count" query
          then
            let error_message := paging_error url in
            Some (Raise (ValueError error_message),
                  logger ERROR [Text error_message] w)
          else
            get_paged_loop fuel self url query_separator page_size use_cache
              [] (JNum (-1)) w
      end
  end.

(** The URI that [get_chunked] requests for one batch. *)
Definition chunk_uri (base_url : string) (query : list (string * string))
    (filter : string) (list_chunk : list V) : string :=
  let filters := map (fun chunk_value => replace_braces (str chunk_value) filter)
                     list_chunk in
  let query_copy := merge_filter query filters in
  let new_str := build_query query_copy true "" in
  base_url ++ new_str.

(** The [for] loop of [get_chunked]. *)
Fixpoint get_chunked_loop (self : ODataClient) (base_url : string)
    (query : list (string * string)) (filter : string)
    (batches : list (list V)) (response_list : list json) (w : world)
  : result json * world :=
  match batches with
  | [] => (Ret (JArr response_list), w)
  | list_chunk :: rest =>
      match get self (chunk_uri base_url query filter list_chunk) None w with
      | (Raise e, w1) => (Raise e, w1)
      | (Ret response, w1) =>
          if negb (truthy response) then (Ret JNull, w1)
          else
            match subscript response "value" with
            | Raise e => (Raise e, w1)
            | Ret value =>
                match py_iter value with
                | Raise e => (Raise e, w1)
                | Ret items =>
                    get_chunked_loop self base_url query filter rest
                      (response_list ++ items) w1
                end
            end
      end
  end.

Definition get_chunked (self : ODataClient) (url filter : string)
    (to_chunk_list : list V) (chunk_size : Z) (w : world)
  : result json * world :=
  match urlparse url with
  | Raise e => (Raise e, w)
  | Ret parsed_url =>
      match parse_query parsed_url with
      | Raise e => (Raise e, w)
      | Ret query =>
          let base_url := base_url_of parsed_url in
          match chunk to_chunk_list chunk_size with
          | Raise e => (Raise e, w)
          | Ret batches =>
              get_chunked_loop self base_url query filter batches [] w
          end
      end
  end.


(** ** Vocabulary of the statements *)

(** The query string [q] has a parameter called [name]. *)
Definition has_param (name q : string) : Prop :=
  exists value, In (name ++ "=" ++ value) (split "&" q).

(** One parameter of a query string, written back as [k=v]. *)
Definition render (kv : string * string) : string := fst kv ++ "=" ++ snd kv.

(** [url] passes the precondition of [get_paged]: it parses, as
    [parsed_url], and carries none of the paging parameters. *)
Definition pageable (url : string) (parsed_url : ParseResult) : Prop :=
  urlparse url = Ret parsed_url
  /\ exists query, parse_query parsed_url = Ret query
       /\ dict_mem "$top" query = false
       /\ dict_mem "$skip" query = false
       /\ dict_mem "$count" query = false.

(** [delivered ... results pages w w']: starting in [w] with [results]
    already held, the successive page requests of [get_paged] are answered
    with the bodies of [pages], whose record lists are the second components;
    [w'] is the world after the last of them. *)
Fixpoint delivered (self : ODataClient) (url query_separator : string)
    (page_size : Z) (use_cache : option bool) (results : list json)
    (pages : list (json * list json)) (w w' : world) : Prop :=
  match pages with
  | [] => w' = w
  | (response, items) :: rest =>
      exists w1,
        get self (paging_url url query_separator page_size results) use_cache w
          = (Ret response, w1)
        /\ subscript response "value" = Ret (JArr items)
        /\ delivered self url query_separator page_size use_cache
             (results ++ items) rest w1 w'
  end.

(** Each page of [pages] is asked for while fewer than [T] records are
    held, [n] at first, and is not empty. *)
Fixpoint steady (T : Z) (n : nat) (pages : list (json * list json)) : Prop :=
  match pages with
  | [] => True
  | (_, items) :: rest =>
      Z.of_nat n < T /\ items <> [] /\ steady T (n + length items) rest
  end.

(** The pages a paged retrieval has gone through so far: the first one is
    not empty and reports the total [T], the others are [steady]. *)
Definition fetched (T : Z) (pages : list (json * list json)) : Prop :=
  match pages with
  | [] => True
  | (first, items) :: rest =>
      items <> [] /\ subscript first "@odata.count" = Ret (JNum T) /\ T <> -1
      /\ steady T (length items) rest
  end.

Definition total_after (T : Z) (pages : list (json * list json)) : json :=
  match pages with
  | [] => JNum (-1)
  | _ => JNum T
  end.

Definition records (pages : list (json * list json)) : list json :=
  concat (map snd pages).

(** [answered self uris bodies w w']: calling [get] on [uris] one after the
    other, from [w], returns [bodies] and ends in [w']. *)
Fixpoint answered (self : ODataClient) (uris : list string)
    (bodies : list json) (w w' : world) : Prop :=
  match uris, bodies with
  | [], [] => w' = w
  | uri :: uris', body :: bodies' =>
      exists w1, get self uri None w = (Ret body, w1)
                 /\ answered self uris' bodies' w1 w'
  | _, _ => False
  end.

(** A response body that carries the record list [items] under ['value']. *)
Definition carries (body : json) (items : list json) : Prop :=
  subscript body "value" = Ret (JArr items).

(** ** Facts about the world *)

Lemma sent_logger lv msg w : sent (logger lv msg w) = sent w.
Proof. reflexivity. Qed.

Lemma sent_sleep t w : sent (sleep t w) = sent w.
Proof. reflexivity. Qed.

Lemma sent_store k v t w : sent (store k v t w) = sent w.
Proof. reflexivity. Qed.

Lemma retrieve_store k v t w : retrieve k (store k v t w) = v.
Proof. unfold retrieve, store; simpl. by rewrite lookup_insert_eq. Qed.

Lemma truthy_not_None b : truthy b = true -> b <> JNull.
Proof. by destruct b. Qed.

(** ** The caching decision *)

Lemma effective_use_cache_true flag use_cache :
  effective_use_cache flag use_cache = true <-> flag = true \/ use_cache = Some true.
Proof.
  unfold effective_use_cache.
  destruct flag, use_cache as [[]|]; simpl; intuition congruence.
Qed.

(** Away from the pair (flag set, explicit [False]) the code decides as the
    documented rule does. *)
Lemma effective_use_cache_documented flag use_cache :
  (flag, use_cache) <> (true, Some false) ->
  effective_use_cache flag use_cache
  = (flag && negb (bool_decide (use_cache = Some false)))
    || bool_decide (use_cache = Some true).
Proof. destruct flag, use_cache as [[]|]; simpl; intros H; try done. Qed.

(** ** One [get] *)

Lemma try_get_sent self uri c w r w1 :
  try_get self uri c w = (r, w1) ->
  (length (sent w1) <= S (length (sent w)))%nat.
Proof.
  unfold try_get, http. intros H.
  destruct (_session self); [|inversion H; lia].
  destruct (server _ _); [|inversion H; simpl; rewrite length_app; simpl; lia].
  destruct (raises_for_status res);
    [inversion H; simpl; rewrite length_app; simpl; lia|].
  destruct (json_body res), c; inversion H; simpl;
    rewrite length_app; simpl; lia.
Qed.

Lemma try_get_stores self uri w b w1 :
  try_get self uri true w = (Ret b, w1) -> retrieve uri w1 = b.
Proof.
  unfold try_get, http. intros H.
  destruct (_session self); [|inversion H].
  destruct (server _ _); [|inversion H].
  destruct (raises_for_status res); [inversion H|].
  destruct (json_body res); inversion H; subst.
  apply retrieve_store.
Qed.

Lemma get_give_up_sent self uri e w r w1 :
  get_give_up self uri e w = (r, w1) -> sent w1 = sent w.
Proof.
  unfold get_give_up. intros H.
  destruct e; inversion H; try reflexivity.
  destruct (json_body res), (status_code res =? 403); reflexivity.
Qed.

Lemma get_give_up_not_truthy self uri e w b w1 :
  get_give_up self uri e w = (Ret b, w1) -> truthy b = false.
Proof.
  unfold get_give_up. intros H. destruct e; inversion H; reflexivity.
Qed.

Lemma get_loop_sent self uri c n : forall w r w1,
  get_loop self uri c n w = (r, w1) ->
  (length (sent w1) <= length (sent w) + S n)%nat.
Proof.
  induction n as [|n IH]; intros w r w1 H; simpl in H;
    destruct (try_get self uri c w) as [[b|e] w2] eqn:Ht;
    apply try_get_sent in Ht.
  - inversion H; subst; lia.
  - apply get_give_up_sent in H. rewrite H. lia.
  - inversion H; subst; lia.
  - apply IH in H. rewrite sent_sleep, sent_logger in H. lia.
Qed.

Lemma get_loop_stores self uri n : forall w b w1,
  get_loop self uri true n w = (Ret b, w1) -> truthy b = true ->
  retrieve uri w1 = b.
Proof.
  induction n as [|n IH]; intros w b w1 H Hb; simpl in H;
    destruct (try_get self uri true w) as [[b'|e] w2] eqn:Ht.
  - inversion H; subst. eapply try_get_stores; eauto.
  - apply get_give_up_not_truthy in H. congruence.
  - inversion H; subst. eapply try_get_stores; eauto.
  - eapply IH; eauto.
Qed.

(** C9, as amended.  With caching in effect, a [get] that returns a truthy
    body [b] leaves [b] stored under the exact URI and has sent at most
    [1 + RETRIES] requests, at most one when the server answers the first
    attempt; a second [get] of the same URI then returns [b] and leaves the
    world as it is: no request, no sleep, no log record. *)
Theorem get_second_call_served_from_cache self uri use_cache w b w1 :
  effective_use_cache (cache_query_requests self) use_cache = true ->
  get self uri use_cache w = (Ret b, w1) ->
  truthy b = true ->
  retrieve uri w1 = b
  /\ get self uri use_cache w1 = (Ret b, w1)
  /\ (length (sent w1) <= length (sent w) + 1 + RETRIES)%nat
  /\ (forall res, server (sent w) (Get (strip "/" uri)) = Response res ->
        raises_for_status res = false -> json_body res <> None ->
        (length (sent w1) <= length (sent w) + 1)%nat).
Proof.
  intros Hc Hget Hb.
  assert (Hstored : retrieve uri w1 = b).
  { unfold get in Hget. rewrite Hc in Hget.
    destruct (truthy (retrieve uri w)) eqn:Hhit.
    - inversion Hget; subst; reflexivity.
    - eapply get_loop_stores; eauto. }
  split; [exact Hstored|]. split.
  { unfold get. rewrite Hc, Hstored, Hb. reflexivity. }
  split.
  { unfold get in Hget. rewrite Hc in Hget.
    destruct (truthy (retrieve uri w)).
    - inversion Hget; subst; lia.
    - apply get_loop_sent in Hget. unfold RETRIES in *. lia. }
  intros res Hres Hstatus Hjson.
  unfold get in Hget. rewrite Hc in Hget.
  destruct (truthy (retrieve uri w)); [inversion Hget; subst; lia|].
  unfold RETRIES in Hget. simpl in Hget.
  unfold try_get at 1 in Hget. unfold http in Hget.
  destruct (_session self) eqn:Hs.
  - rewrite Hres, Hstatus in Hget.
    destruct (json_body res); [|congruence].
    inversion Hget; subst. simpl. rewrite length_app. simpl. lia.
  - unfold try_get in Hget. rewrite Hs in Hget. discriminate.
Qed.

(** ** The terminal handlers on status 403 *)

Lemma get_forbidden_is_soft self uri c w e1 w1 res w2 :
  try_get self uri c w = (Raise e1, w1) ->
  try_get self uri c
    (sleep SLEEP_TIME
       (logger INFO [Text ("GET request failed. Retrying after "
                           ++ str_Z SLEEP_TIME ++ " seconds...")] w1))
    = (Raise (HTTPError res), w2) ->
  status_code res = 403 ->
  exists w', get_loop self uri c RETRIES w = (Ret JNull, w')
             /\ last (log w') = Some (ERROR, unauthorized self)
             /\ sent w' = sent w2.
Proof.
  intros H1 H2 H403. unfold RETRIES. cbn [get_loop]. rewrite H1, H2.
  unfold get_give_up. rewrite H403. simpl. eexists. split; [reflexivity|]. split.
  - simpl. apply last_snoc.
  - destruct (json_body res); reflexivity.
Qed.

Lemma post_forbidden_with_json_is_fatal self uri command payload headers
    w e1 w1 res j w2 :
  try_post self uri command payload headers w = (Raise e1, w1) ->
  try_post self uri command payload headers
    (sleep SLEEP_TIME
       (logger INFO [Text ("POST request failed. Retrying after "
                           ++ str_Z SLEEP_TIME ++ " seconds...")] w1))
    = (Raise (HTTPError res), w2) ->
  status_code res = 403 ->
  json_body res = Some j ->
  exists w', post self uri command payload headers w
             = (Raise (RuntimeError "Access was denied"), w')
             /\ last (log w') = Some (ERROR, unauthorized self).
Proof.
  intros H1 H2 H403 Hj. unfold post, RETRIES. cbn [post_loop].
  rewrite H1, H2. unfold post_give_up. rewrite Hj, H403. simpl. eexists. split; [reflexivity|].
  simpl. apply last_snoc.
Qed.

Lemma post_http_error_without_json self uri command payload headers
    w e1 w1 res w2 :
  try_post self uri command payload headers w = (Raise e1, w1) ->
  try_post self uri command payload headers
    (sleep SLEEP_TIME
       (logger INFO [Text ("POST request failed. Retrying after "
                           ++ str_Z SLEEP_TIME ++ " seconds...")] w1))
    = (Raise (HTTPError res), w2) ->
  json_body res = None ->
  fst (post self uri command payload headers w) = Raise JSONDecodeError.
Proof.
  intros H1 H2 Hj. unfold post, RETRIES. cbn [post_loop]. rewrite H1, H2.
  unfold post_give_up. rewrite Hj. reflexivity.
Qed.

(** ** Paged retrieval *)

Lemma subscript_is_object response key x :
  subscript response key = Ret x -> truthy response = true /\ response <> JNull.
Proof.
  destruct response; simpl; try discriminate.
  destruct members; simpl; [discriminate|]. intros _. split; congruence.
Qed.

Lemma more_pages_below (T : Z) results :
  T <> -1 -> Z.of_nat (length results) < T ->
  more_pages results (JNum T) = Ret true.
Proof.
  intros Hne Hlt. unfold more_pages, is_minus_one, len_lt.
  destruct (T =? -1) eqn:E; [apply Z.eqb_eq in E; congruence|].
  f_equal. by apply Z.ltb_lt.
Qed.

Lemma more_pages_reached (T : Z) results :
  T <> -1 -> T <= Z.of_nat (length results) ->
  more_pages results (JNum T) = Ret false.
Proof.
  intros Hne Hle. unfold more_pages, is_minus_one, len_lt.
  destruct (T =? -1) eqn:E; [apply Z.eqb_eq in E; congruence|].
  f_equal. apply Z.ltb_ge. lia.
Qed.

(** One iteration that takes in a non-empty page. *)
Lemma get_paged_loop_page fuel self url sep page_size use_cache
    results total response items w w1 :
  more_pages results total = Ret true ->
  get self (paging_url url sep page_size results) use_cache w = (Ret response, w1) ->
  subscript response "value" = Ret (JArr items) ->
  items <> [] ->
  get_paged_loop (S fuel) self url sep page_size use_cache results total w
  = if is_minus_one total then
      match subscript response "@odata.count" with
      | Raise e => Some (Raise e, w1)
      | Ret count =>
          get_paged_loop fuel self url sep page_size use_cache
            (results ++ items) count w1
      end
    else get_paged_loop fuel self url sep page_size use_cache
           (results ++ items) total w1.
Proof.
  intros Hmore Hget Hvalue Hitems. simpl. rewrite Hmore, Hget.
  destruct (subscript_is_object _ _ _ Hvalue) as [_ Hnn].
  destruct response; try congruence; simpl is_None; cbv iota.
  all: rewrite Hvalue; simpl; destruct items; [congruence|]; reflexivity.
Qed.

Lemma steady_loop self url sep page_size use_cache (T : Z) :
  T <> -1 ->
  forall pages results w w' fuel,
    steady T (length results) pages ->
    delivered self url sep page_size use_cache results pages w w' ->
    get_paged_loop (length pages + fuel) self url sep page_size use_cache
      results (JNum T) w
    = get_paged_loop fuel self url sep page_size use_cache
        (results ++ records pages) (JNum T) w'.
Proof.
  intros HT. induction pages as [|[response items] rest IH];
    intros results w w' fuel Hsteady Hdel.
  - simpl in Hdel. subst. unfold records. simpl. by rewrite app_nil_r.
  - destruct Hsteady as (Hlt & Hne & Hrest).
    destruct Hdel as (w1 & Hget & Hvalue & Hdel).
    change (length ((response, items) :: rest) + fuel)%nat
      with (S (length rest + fuel)).
    rewrite (get_paged_loop_page _ _ _ _ _ _ _ _ _ _ _ _
               (more_pages_below _ _ HT Hlt) Hget Hvalue Hne).
    replace (is_minus_one (JNum T)) with false
      by (simpl; symmetry; apply Z.eqb_neq; exact HT).
    rewrite (IH (results ++ items)%list w1 w' fuel).
    + unfold records. simpl. by rewrite app_assoc.
    + by rewrite length_app.
    + exact Hdel.
Qed.

Lemma fetched_loop self url sep page_size use_cache T pages w w' fuel :
  fetched T pages ->
  delivered self url sep page_size use_cache [] pages w w' ->
  get_paged_loop (length pages + fuel) self url sep page_size use_cache
    [] (JNum (-1)) w
  = get_paged_loop fuel self url sep page_size use_cache
      (records pages) (total_after T pages) w'.
Proof.
  destruct pages as [|[first items] rest]; intros Hf Hdel.
  - simpl in Hdel. subst. reflexivity.
  - destruct Hf as (Hne & Hcount & HT & Hsteady).
    destruct Hdel as (w1 & Hget & Hvalue & Hdel).
    change (length ((first, items) :: rest) + fuel)%nat
      with (S (length rest + fuel)).
    set (fuel' := (length rest + fuel)%nat).
    rewrite (get_paged_loop_page fuel' self url sep page_size use_cache
               [] (JNum (-1)) first items w w1 eq_refl Hget Hvalue Hne).
    simpl is_minus_one. cbv iota. rewrite Hcount.
    simpl in Hdel. subst fuel'. rewrite app_nil_l.
    rewrite (steady_loop _ _ _ _ _ _ HT rest items w1 w' fuel Hsteady Hdel).
    reflexivity.
Qed.

Lemma get_paged_enters_loop fuel self url parsed_url page_size use_cache w :
  pageable url parsed_url ->
  get_paged fuel self url page_size use_cache w
  = get_paged_loop fuel self url (query_separator_of parsed_url) page_size
      use_cache [] (JNum (-1)) w.
Proof.
  intros (Hparse & query & Hquery & Htop & Hskip & Hcount).
  unfold get_paged. by rewrite Hparse, Hquery, Htop, Hskip, Hcount.
Qed.

(** C3.  Whatever pages a paged retrieval has already taken in, if the next
    page request comes back from [get] as [None], [get_paged] returns [None]:
    the records held so far are dropped, not returned. *)
Theorem get_paged_page_failure self url parsed_url page_size use_cache
    T pages w w1 w2 fuel :
  pageable url parsed_url ->
  fetched T pages ->
  delivered self url (query_separator_of parsed_url) page_size use_cache
    [] pages w w1 ->
  more_pages (records pages) (total_after T pages) = Ret true ->
  get self (paging_url url (query_separator_of parsed_url) page_size
              (records pages)) use_cache w1 = (Ret JNull, w2) ->
  get_paged (length pages + S fuel) self url page_size use_cache w
  = Some (Ret JNull, w2).
Proof.
  intros Hurl Hf Hdel Hmore Hget.
  rewrite (get_paged_enters_loop _ _ _ _ _ _ _ Hurl).
  rewrite (fetched_loop _ _ _ _ _ _ _ _ _ _ Hf Hdel).
  simpl. by rewrite Hmore, Hget.
Qed.

(** C8.  Whatever pages a paged retrieval has already taken in, if the next
    page holds zero records the loop stops there and [get_paged] returns the
    records held so far, although the total reported by the first page has
    not been reached: [more_pages] still holds. *)
Theorem get_paged_stops_on_empty_page self url parsed_url page_size use_cache
    T pages w w1 response value w2 fuel :
  pageable url parsed_url ->
  fetched T pages ->
  delivered self url (query_separator_of parsed_url) page_size use_cache
    [] pages w w1 ->
  more_pages (records pages) (total_after T pages) = Ret true ->
  get self (paging_url url (query_separator_of parsed_url) page_size
              (records pages)) use_cache w1 = (Ret response, w2) ->
  subscript response "value" = Ret value ->
  py_len value = Ret O ->
  get_paged (length pages + S fuel) self url page_size use_cache w
  = Some (Ret (envelope (records pages)), w2).
Proof.
  intros Hurl Hf Hdel Hmore Hget Hvalue Hlen.
  rewrite (get_paged_enters_loop _ _ _ _ _ _ _ Hurl).
  rewrite (fetched_loop _ _ _ _ _ _ _ _ _ _ Hf Hdel).
  simpl. rewrite Hmore, Hget.
  destruct (subscript_is_object _ _ _ Hvalue) as [_ Hnn].
  destruct response; try congruence; simpl is_None; cbv iota.
  all: by rewrite Hvalue, Hlen.
Qed.

(** C2, as amended.  Every page request succeeds, the first page reports the
    total [T], no page is empty while fewer than [T] records are held, and
    the pages add up to exactly [T] records (no page brings more than is
    still missing): then [get_paged] returns [{'value': records}] with the
    [T] records in the order the pages delivered them. *)
Theorem get_paged_returns_all_records self url parsed_url page_size use_cache
    T first items rest w w' fuel :
  pageable url parsed_url ->
  delivered self url (query_separator_of parsed_url) page_size use_cache
    [] ((first, items) :: rest) w w' ->
  subscript first "@odata.count" = Ret (JNum T) ->
  0 <= T ->
  (0 < T -> items <> []) ->
  steady T (length items) rest ->
  Z.of_nat (length (records ((first, items) :: rest))) = T ->
  get_paged (length ((first, items) :: rest) + S fuel) self url page_size
    use_cache w
  = Some (Ret (envelope (records ((first, items) :: rest))), w')
  /\ envelope (records ((first, items) :: rest))
     = JObj [("value", JArr (items ++ records rest))]
  /\ Z.of_nat (length (items ++ records rest)) = T.
Proof.
  intros Hurl Hdel Hcount HT0 Hfirst Hsteady Hsum.
  split; [|split; [reflexivity|exact Hsum]].
  destruct items as [|r items'].
  - (* the listing is empty: T = 0 and the first page ends the loop *)
    destruct rest as [|[p its] rest'].
    + destruct Hdel as (w1 & Hget & Hvalue & ->).
      rewrite (get_paged_enters_loop _ _ _ _ _ _ _ Hurl).
      simpl. rewrite Hget.
      destruct (subscript_is_object _ _ _ Hvalue) as [_ Hnn].
      destruct first; try congruence; simpl is_None; cbv iota.
      all: by rewrite Hvalue.
    + destruct Hsteady as (Hlt & _). simpl in Hlt.
      exfalso. apply Hfirst; [lia|reflexivity].
  - assert (Hf : fetched T ((first, r :: items') :: rest)).
    { repeat split; [congruence|exact Hcount|lia|exact Hsteady]. }
    rewrite (get_paged_enters_loop _ _ _ _ _ _ _ Hurl).
    rewrite (fetched_loop _ _ _ _ _ _ _ _ _ _ Hf Hdel).
    simpl total_after. simpl get_paged_loop.
    rewrite more_pages_reached; [reflexivity|lia|lia].
Qed.

(** Without the bound on the last page the size is only a lower bound: the
    loop runs until at least [T] records are held. *)
Lemma get_paged_returns_at_least_total self url parsed_url page_size use_cache
    T pages w w' fuel :
  pageable url parsed_url ->
  fetched T pages -> pages <> [] ->
  delivered self url (query_separator_of parsed_url) page_size use_cache
    [] pages w w' ->
  T <= Z.of_nat (length (records pages)) ->
  get_paged (length pages + S fuel) self url page_size use_cache w
  = Some (Ret (envelope (records pages)), w').
Proof.
  intros Hurl Hf Hne Hdel Hsum.
  rewrite (get_paged_enters_loop _ _ _ _ _ _ _ Hurl).
  rewrite (fetched_loop _ _ _ _ _ _ _ _ _ _ Hf Hdel).
  destruct pages as [|[first items] rest]; [congruence|].
  destruct Hf as (_ & _ & HT & _).
  simpl total_after. simpl get_paged_loop.
  by rewrite more_pages_reached.
Qed.

(** ** Query strings and the paging precondition *)

Lemma dict_mem_set_same {A : Type} key (v : A) d :
  dict_mem key (dict_set key v d) = true.
Proof.
  unfold dict_mem. induction d as [|[k x] d IH]; simpl.
  - by rewrite String.eqb_refl.
  - destruct (String.eqb k key) eqn:E; simpl; rewrite E; [reflexivity|exact IH].
Qed.

Lemma dict_mem_set_other {A : Type} key key' (v : A) d :
  dict_mem key d = true -> dict_mem key (dict_set key' v d) = true.
Proof.
  unfold dict_mem. induction d as [|[k x] d IH]; simpl; [discriminate|].
  intros H. destruct (String.eqb k key') eqn:E'; simpl;
    destruct (String.eqb k key); try reflexivity; auto.
Qed.

(** Parsing either fails with the unpacking [ValueError] or keeps every key
    that is already in the dictionary. *)
Lemma parse_params_keeps key : forall pieces d,
  dict_mem key d = true ->
  (exists msg, parse_params pieces d = Raise (ValueError msg))
  \/ (exists q, parse_params pieces d = Ret q /\ dict_mem key q = true).
Proof.
  induction pieces as [|param rest IH]; intros d Hd; simpl.
  - right. eauto.
  - destruct (String.eqb param ""); [by apply IH|].
    destruct (split_once "=" param) as [[k v]|]; [|left; eauto].
    apply IH. by apply dict_mem_set_other.
Qed.

Lemma parse_params_finds key value : forall pieces d,
  split_once "=" (key ++ "=" ++ value) = Some (key, value) ->
  In (key ++ "=" ++ value) pieces ->
  (exists msg, parse_params pieces d = Raise (ValueError msg))
  \/ (exists q, parse_params pieces d = Ret q /\ dict_mem key q = true).
Proof.
  intros pieces d Hsplit. revert d.
  induction pieces as [|param rest IH]; intros d Hin; [destruct Hin|].
  destruct Hin as [->|Hin]; simpl.
  - destruct (String.eqb (key ++ "=" ++ value) "") eqn:E.
    + apply String.eqb_eq in E. rewrite E in Hsplit. discriminate.
    + rewrite Hsplit. apply parse_params_keeps. apply dict_mem_set_same.
  - destruct (String.eqb param ""); [by apply IH|].
    destruct (split_once "=" param) as [[k v]|]; [|left; eauto].
    by apply IH.
Qed.

Lemma has_param_parsed name parsed_url :
  (forall value, split_once "=" (name ++ "=" ++ value) = Some (name, value)) ->
  has_param name (query parsed_url) ->
  (exists msg, parse_query parsed_url = Raise (ValueError msg))
  \/ (exists q, parse_query parsed_url = Ret q /\ dict_mem name q = true).
Proof.
  intros Hsplit [value Hin]. unfold parse_query.
  eapply parse_params_finds; eauto.
Qed.

(** C7.  When the query string of the URL has a [$top], [$skip] or [$count]
    parameter, [get_paged] raises a [ValueError] at once: for any fuel, even
    none, with no request sent, no sleep (so no retry) and the cache
    untouched. *)
Theorem get_paged_rejects_paging_parameters fuel self url parsed_url
    page_size use_cache w :
  urlparse url = Ret parsed_url ->
  has_param "$top" (query parsed_url)
  \/ has_param "$skip" (query parsed_url)
  \/ has_param "$count" (query parsed_url) ->
  exists msg w',
    get_paged fuel self url page_size use_cache w
    = Some (Raise (ValueError msg), w')
    /\ sent w' = sent w /\ sleeps w' = sleeps w /\ cache w' = cache w.
Proof.
  intros Hparse Hparam. unfold get_paged. rewrite Hparse.
  assert (Hq : (exists msg, parse_query parsed_url = Raise (ValueError msg))
               \/ (exists q, parse_query parsed_url = Ret q
                     /\ dict_mem "$top" q || dict_mem "$skip" q
                        || dict_mem "$count" q = true)).
  { destruct Hparam as [H|[H|H]];
      apply has_param_parsed in H; try (intros value; reflexivity);
      (destruct H as [H|(q & Hq & Hm)]; [left; exact H|]);
      right; exists q; (split; [exact Hq|]); rewrite Hm;
      rewrite ?orb_true_r; reflexivity. }
  destruct Hq as [[msg Hq]|(q & Hq & Hm)]; rewrite Hq.
  - exists msg, w. auto.
  - rewrite Hm. eexists _, _. split; [reflexivity|]. auto.
Qed.

(** ** Chunked retrieval: the URI of a batch *)

Lemma append_cons x (a b : string) : String x a ++ b = String x (a ++ b).
Proof. reflexivity. Qed.

Lemma append_assoc (a b c : string) : (a ++ b) ++ c = a ++ b ++ c.
Proof.
  induction a as [|x a IH]; [reflexivity|].
  by rewrite !append_cons, IH.
Qed.

Lemma append_empty_r (a : string) : a ++ "" = a.
Proof.
  induction a as [|x a IH]; [reflexivity|].
  by rewrite append_cons, IH.
Qed.

Lemma join_cons sep p q rest :
  join sep (p :: q :: rest) = p ++ sep ++ join sep (q :: rest).
Proof. reflexivity. Qed.

Lemma build_query_rest : forall items new_str,
  build_query items false new_str
  = new_str ++ match items with
               | [] => ""
               | _ => "&" ++ join "&" (map render items)
               end.
Proof.
  induction items as [|[k v] rest IH]; intros new_str.
  - symmetry. apply append_empty_r.
  - cbn [build_query]. rewrite IH. destruct rest as [|kv rest].
    + rewrite append_empty_r. reflexivity.
    + cbn [map]. rewrite join_cons.
      set (tail := join "&" (render kv :: map render rest)).
      unfold render. cbn [fst snd]. by rewrite !append_assoc.
Qed.

(** The writing loop yields the items as [k=v], joined by [&], in order. *)
Lemma build_query_join items :
  build_query items true "" = join "&" (map render items).
Proof.
  destruct items as [|[k v] rest]; simpl; [reflexivity|].
  rewrite build_query_rest.
  destruct rest; simpl; [by rewrite append_empty_r|reflexivity].
Qed.

Lemma dict_get_middle {A : Type} key (x : A) pre post :
  dict_get key pre = None ->
  dict_get key (pre ++ (key, x) :: post)%list = Some x.
Proof.
  induction pre as [|[k y] pre IH]; simpl.
  - by rewrite String.eqb_refl.
  - destruct (String.eqb k key); [discriminate|exact IH].
Qed.

Lemma dict_set_middle {A : Type} key (x v : A) pre post :
  dict_get key pre = None ->
  dict_set key v (pre ++ (key, x) :: post)%list = (pre ++ (key, v) :: post)%list.
Proof.
  induction pre as [|[k y] pre IH]; simpl.
  - by rewrite String.eqb_refl.
  - destruct (String.eqb k key); [discriminate|].
    intros H. by rewrite IH.
Qed.

Lemma dict_set_absent {A : Type} key (v : A) d :
  dict_get key d = None -> dict_set key v d = (d ++ [(key, v)])%list.
Proof.
  induction d as [|[k y] d IH]; simpl; [reflexivity|].
  destruct (String.eqb k key); [discriminate|].
  intros H. by rewrite IH.
Qed.

(** The URI of a batch, written out from the parsed dictionary: a [$filter]
    entry has its value replaced where it stands, otherwise one is added
    after the last entry. *)
Lemma chunk_uri_explicit base_url query filter list_chunk D :
  D = join " or " (map (fun v => replace_braces (str v) filter) list_chunk) ->
  (forall pre A post,
      query = (pre ++ ("$filter", A) :: post)%list ->
      dict_get "$filter" pre = None ->
      chunk_uri base_url query filter list_chunk
      = base_url ++ join "&" (map render
          (pre ++ ("$filter", ("(" ++ A ++ ") and (" ++ D ++ ")")%string) :: post)%list))
  /\ (dict_get "$filter" query = None ->
      chunk_uri base_url query filter list_chunk
      = base_url ++ join "&" (map render (query ++ [("$filter", D)])%list)).
Proof.
  intros ->. split.
  - intros pre A post -> Hpre.
    unfold chunk_uri, merge_filter.
    rewrite (dict_get_middle _ _ _ _ Hpre), (dict_set_middle _ _ _ _ _ Hpre).
    by rewrite build_query_join.
  - intros Hnone. unfold chunk_uri, merge_filter.
    rewrite Hnone, (dict_set_absent _ _ _ Hnone).
    by rewrite build_query_join.
Qed.

(** ** Chunked retrieval: the batches *)

Lemma slices_concat {A : Type} (l : list A) (n : nat) : forall k,
  concat (map (fun i => take n (drop (i * n) l)) (seq 0 k)) = take (k * n) l.
Proof.
  induction k as [|k IH]; [reflexivity|].
  rewrite seq_S, map_app, concat_app, IH. simpl.
  rewrite app_nil_r, take_take_drop. f_equal. lia.
Qed.

Lemma ceiling_bounds (len n : nat) :
  (0 < n)%nat ->
  let k := ((len + n - 1) / n)%nat in
  (len <= k * n)%nat /\ (k * n < len + n)%nat.
Proof.
  intros Hn k.
  pose proof (Nat.div_mod_eq (len + n - 1) n) as Hdiv.
  pose proof (Nat.mod_upper_bound (len + n - 1) n) as Hmod.
  fold k in Hdiv. nia.
Qed.

(** For a positive size, [chunk] cuts the list into [ceil(N/C)] consecutive
    batches of at most [C] values, none empty, in input order. *)
Lemma chunk_positive {A : Type} (array : list A) (size : Z) :
  0 < size ->
  exists batches,
    chunk array size = Ret batches
    /\ concat batches = array
    /\ Forall (fun b => 0 < Z.of_nat (length b) <= size) batches
    /\ (Z.of_nat (length batches) - 1) * size < Z.of_nat (length array)
       <= Z.of_nat (length batches) * size.
Proof.
  intros Hsize. unfold chunk.
  destruct (size =? 0) eqn:E0; [apply Z.eqb_eq in E0; lia|].
  destruct (size <? 0) eqn:E1; [apply Z.ltb_lt in E1; lia|].
  set (n := Z.to_nat size). set (k := ((length array + n - 1) / n)%nat).
  assert (Hn : (0 < n)%nat) by (unfold n; lia).
  destruct (ceiling_bounds (length array) n Hn) as [Hup Hlow]. fold k in Hup, Hlow.
  eexists. split; [reflexivity|]. split; [|split].
  - rewrite slices_concat. apply take_ge. exact Hup.
  - apply Forall_map, Forall_seq. intros i Hi. simpl.
    rewrite length_take, length_drop. unfold n in *. nia.
  - rewrite length_map, length_seq. unfold n in *. nia.
Qed.

Lemma get_chunked_loop_prefix self base_url query filter :
  forall done bodies recs rest response_list w w1,
    answered self (map (chunk_uri base_url query filter) done) bodies w w1 ->
    Forall2 carries bodies recs ->
    get_chunked_loop self base_url query filter (done ++ rest) response_list w
    = get_chunked_loop self base_url query filter rest
        (response_list ++ concat recs) w1.
Proof.
  induction done as [|list_chunk done IH];
    intros bodies recs rest response_list w w1 Hans Hrecs.
  - destruct bodies; [|destruct Hans]. simpl in Hans. subst.
    inversion Hrecs; subst. simpl. by rewrite app_nil_r.
  - destruct bodies as [|body bodies]; [destruct Hans|].
    destruct Hans as (w2 & Hget & Hans).
    inversion Hrecs as [|? r ? recs' Hbody Hrecs']; subst.
    cbn [app get_chunked_loop]. rewrite Hget.
    destruct (subscript_is_object _ _ _ Hbody) as [Htruthy _].
    rewrite Htruthy. cbn [negb]. unfold carries in Hbody. rewrite Hbody.
    cbn [py_iter]. rewrite (IH bodies recs' rest _ w2 w1 Hans Hrecs').
    simpl. by rewrite app_assoc.
Qed.

Lemma answered_length self : forall uris bodies w w',
  answered self uris bodies w w' -> length bodies = length uris.
Proof.
  induction uris as [|u uris IH]; intros [|b bodies] w w' H;
    try (by destruct H); try reflexivity.
  destruct H as (w1 & _ & H). simpl. f_equal. by eapply IH.
Qed.

(** C4.  With a chunk size [C > 0] and a list of [N] values, when every
    batch's [get] returns a body carrying a record list, [get_chunked] has
    called [get] exactly once per batch, in batch order, and nothing else
    (the world it leaves is the world after those calls); the batches are
    [ceil(N/C)] consecutive slices of at most [C] values in input order; and
    the value returned is the concatenation of the batches' record lists in
    batch order. *)
Theorem get_chunked_one_get_per_batch self url filter to_chunk_list chunk_size
    parsed_url query batches bodies recs w w' :
  0 < chunk_size ->
  urlparse url = Ret parsed_url ->
  parse_query parsed_url = Ret query ->
  chunk to_chunk_list chunk_size = Ret batches ->
  answered self (map (chunk_uri (base_url_of parsed_url) query filter) batches)
    bodies w w' ->
  Forall2 carries bodies recs ->
  get_chunked self url filter to_chunk_list chunk_size w
    = (Ret (JArr (concat recs)), w')
  /\ length bodies = length batches
  /\ (Z.of_nat (length batches) - 1) * chunk_size
       < Z.of_nat (length to_chunk_list)
       <= Z.of_nat (length batches) * chunk_size
  /\ concat batches = to_chunk_list
  /\ Forall (fun b => 0 < Z.of_nat (length b) <= chunk_size) batches.
Proof.
  intros Hsize Hparse Hquery Hchunk Hans Hrecs.
  destruct (chunk_positive to_chunk_list chunk_size Hsize)
    as (batches' & Hchunk' & Hconcat & Hsizes & Hcount).
  rewrite Hchunk in Hchunk'. inversion Hchunk'; subst batches'.
  split; [|split; [|auto]].
  - unfold get_chunked. rewrite Hparse, Hquery, Hchunk.
    rewrite <- (app_nil_r batches).
    rewrite (get_chunked_loop_prefix _ _ _ _ _ _ _ [] [] _ _ Hans Hrecs).
    reflexivity.
  - apply answered_length in Hans. by rewrite length_map in Hans.
Qed.



(** A falsy body that is [None] ends both retrievals with [None]. *)
Lemma get_chunked_batch_failure self url filter to_chunk_list chunk_size
    parsed_url query done list_chunk rest bodies recs w w1 w2 :
  urlparse url = Ret parsed_url ->
  parse_query parsed_url = Ret query ->
  chunk to_chunk_list chunk_size = Ret (done ++ list_chunk :: rest)%list ->
  answered self (map (chunk_uri (base_url_of parsed_url) query filter) done)
    bodies w w1 ->
  Forall2 carries bodies recs ->
  get self (chunk_uri (base_url_of parsed_url) query filter list_chunk) None w1
    = (Ret JNull, w2) ->
  get_chunked self url filter to_chunk_list chunk_size w = (Ret JNull, w2).
Proof.
  intros Hparse Hquery Hchunk Hans Hrecs Hget.
  unfold get_chunked. rewrite Hparse, Hquery, Hchunk.
  rewrite (get_chunked_loop_prefix _ _ _ _ _ _ _ _ [] _ _ Hans Hrecs).
  cbn [get_chunked_loop]. by rewrite Hget.
Qed.


(** ** Further properties of [get] *)

Lemma try_get_effects self uri c w r w1 :
  try_get self uri c w = (r, w1) ->
  sleeps w1 = sleeps w /\ log w1 = log w
  /\ (sent w1 = sent w \/ sent w1 = (sent w ++ [Get (strip "/" uri)])%list).
Proof.
  unfold try_get, http. intros H.
  destruct (_session self); [|inversion H; auto].
  destruct (server _ _); [|inversion H; simpl; auto].
  destruct (raises_for_status res); [inversion H; simpl; auto|].
  destruct (json_body res), c; inversion H; simpl; auto.
Qed.

Lemma try_get_cache self uri c w r w1 :
  try_get self uri c w = (r, w1) ->
  cache w1 = cache w
  \/ (c = true
      /\ exists body, r = Ret body
         /\ cache w1 = <[uri := (body, query_cache_timeout_hours self)]> (cache w)).
Proof.
  unfold try_get, http. intros H.
  destruct (_session self); [|inversion H; auto].
  destruct (server _ _); [|inversion H; simpl; auto].
  destruct (raises_for_status res); [inversion H; simpl; auto|].
  destruct (json_body res), c; inversion H; simpl; eauto.
Qed.

Lemma try_get_raise self uri c w e w1 :
  try_get self uri c w = (Raise e, w1) ->
  (_session self = None /\ e = AttributeError)
  \/ e = ReqConnError \/ e = Timeout \/ e = JSONDecodeError
  \/ (exists res, e = HTTPError res)
  \/ (exists name, e = OtherException name).
Proof.
  unfold try_get, http. intros H.
  destruct (_session self) eqn:Hs; [|inversion H; auto].
  destruct (server _ _) as [res|[| |name]]; try (inversion H; subst; eauto 10; fail).
  destruct (raises_for_status res); [inversion H; subst; eauto 10|].
  destruct (json_body res); inversion H; subst; eauto 10.
Qed.

Lemma get_give_up_effects self uri e w r w1 :
  get_give_up self uri e w = (r, w1) ->
  sent w1 = sent w /\ sleeps w1 = sleeps w /\ cache w1 = cache w.
Proof.
  unfold get_give_up. intros H.
  destruct e; inversion H; auto.
  destruct (json_body res), (status_code res =? 403); auto.
Qed.

Lemma get_give_up_raise self uri e w e' w1 :
  get_give_up self uri e w = (Raise e', w1) ->
  e' = e /\ e <> ReqConnError /\ e <> Timeout /\ e <> JSONDecodeError
  /\ forall res, e <> HTTPError res.
Proof.
  unfold get_give_up. intros H.
  destruct e; inversion H; subst; repeat split; congruence.
Qed.

Lemma get_loop_raise self uri c n : forall w e w',
  get_loop self uri c n w = (Raise e, w') ->
  (_session self = None /\ e = AttributeError)
  \/ (exists name, e = OtherException name).
Proof.
  induction n as [|n IH]; intros w e w' H; simpl in H;
    destruct (try_get self uri c w) as [[b|e0] w1] eqn:Ht; try discriminate.
  - apply get_give_up_raise in H. destruct H as (-> & H1 & H2 & H3 & H4).
    apply try_get_raise in Ht.
    destruct Ht as [?|[?|[?|[?|[[res ?]|?]]]]]; auto; congruence.
  - by eapply IH.
Qed.

(** X1.  [get] never raises for a refused connection, a timeout, a body
    that does not decode or an HTTP error status: what it raises is either
    the [AttributeError] of a client without a session, or an exception of a
    class outside its handlers that the transport raised. *)
Theorem get_raises_only_unhandled self uri use_cache w :
  match get self uri use_cache w with
  | (Raise e, _) =>
      (_session self = None /\ e = AttributeError)
      \/ (exists name, e = OtherException name)
  | (Ret _, _) => True
  end.
Proof.
  destruct (get self uri use_cache w) as [[v|e] w'] eqn:H; [exact I|].
  unfold get in H.
  destruct (effective_use_cache _ _);
    [destruct (truthy (retrieve uri w)); [discriminate|]|];
    by eapply get_loop_raise.
Qed.

Lemma get_loop_traffic self uri c n : forall w r w',
  get_loop self uri c n w = (r, w') ->
  exists m k,
    (m <= S n)%nat /\ (k <= n)%nat /\ (m <= S k)%nat
    /\ sent w' = (sent w ++ replicate m (Get (strip "/" uri)))%list
    /\ sleeps w' = (sleeps w ++ replicate k SLEEP_TIME)%list.
Proof.
  induction n as [|n IH]; intros w r w' H; simpl in H;
    destruct (try_get self uri c w) as [[b|e] w1] eqn:Ht;
    apply try_get_effects in Ht; destruct Ht as (Hsl & _ & Hsent).
  - inversion H; subst.
    destruct Hsent as [Hs|Hs]; [exists O, O|exists 1%nat, O];
      rewrite Hs, Hsl, ?app_nil_r; repeat split; auto; lia.
  - apply get_give_up_effects in H. destruct H as (Hs' & Hsl' & _).
    destruct Hsent as [Hs|Hs]; [exists O, O|exists 1%nat, O];
      rewrite Hs', Hsl', Hs, Hsl, ?app_nil_r; repeat split; auto; lia.
  - inversion H; subst.
    destruct Hsent as [Hs|Hs]; [exists O, O|exists 1%nat, O];
      rewrite Hs, Hsl, ?app_nil_r; repeat split; auto; lia.
  - apply IH in H. destruct H as (m & k & Hm & Hk & Hmk & Hs' & Hsl').
    simpl in Hs', Hsl'. rewrite Hsl in Hsl'.
    destruct Hsent as [Hs|Hs]; rewrite Hs in Hs'.
    + exists m, (S k). rewrite Hs', Hsl', <- app_assoc.
      repeat split; auto; lia.
    + exists (S m), (S k). rewrite Hs', Hsl', <- !app_assoc.
      repeat split; auto; lia.
Qed.

(** X2.  One [get] sends at most [1 + RETRIES] requests, all of them the
    same GET of [uri.strip('/')], sleeps [SLEEP_TIME] seconds at most
    [RETRIES] times, each sleep preceding one more request: there are at
    most as many requests as sleeps plus one. *)
Theorem get_traffic self uri use_cache w :
  exists m k,
    (m <= 1 + RETRIES)%nat /\ (k <= RETRIES)%nat /\ (m <= S k)%nat
    /\ sent (snd (get self uri use_cache w))
       = (sent w ++ replicate m (Get (strip "/" uri)))%list
    /\ sleeps (snd (get self uri use_cache w))
       = (sleeps w ++ replicate k SLEEP_TIME)%list.
Proof.
  assert (Hhit : exists m k,
    (m <= 1 + RETRIES)%nat /\ (k <= RETRIES)%nat /\ (m <= S k)%nat
    /\ sent w = (sent w ++ replicate m (Get (strip "/" uri)))%list
    /\ sleeps w = (sleeps w ++ replicate k SLEEP_TIME)%list).
  { exists O, O. simpl. rewrite !app_nil_r. repeat split; auto; lia. }
  unfold get.
  destruct (effective_use_cache _ _);
    [destruct (truthy (retrieve uri w)); [exact Hhit|]|];
    (destruct (get_loop self uri _ RETRIES w) as [r w'] eqn:H;
     apply get_loop_traffic in H; exact H).
Qed.

Lemma get_loop_cache self uri c n : forall w r w',
  get_loop self uri c n w = (r, w') ->
  cache w' = cache w
  \/ (c = true
      /\ exists body, r = Ret body
         /\ cache w' = <[uri := (body, query_cache_timeout_hours self)]> (cache w)).
Proof.
  induction n as [|n IH]; intros w r w' H; simpl in H;
    destruct (try_get self uri c w) as [[b|e] w1] eqn:Ht;
    apply try_get_cache in Ht.
  - inversion H; subst. exact Ht.
  - apply get_give_up_effects in H. destruct H as (_ & _ & Hc).
    destruct Ht as [Ht|(_ & body & Hb & _)]; [|discriminate].
    left. congruence.
  - inversion H; subst. exact Ht.
  - apply IH in H. simpl in H.
    destruct Ht as [Ht|(_ & body & Hb & _)]; [|discriminate].
    by rewrite Ht in H.
Qed.

(** X3.  The only thing [get] ever does to the cache is to store the body
    it returns under the URI exactly as it was passed (not stripped), with
    the instance's time-to-live, and only when caching is in effect; in
    every other case, failures included, the cache is left as it was. *)
Theorem get_cache_effect self uri use_cache w :
  let (r, w') := get self uri use_cache w in
  cache w' = cache w
  \/ (effective_use_cache (cache_query_requests self) use_cache = true
      /\ exists body, r = Ret body
         /\ cache w' = <[uri := (body, query_cache_timeout_hours self)]> (cache w)).
Proof.
  destruct (get self uri use_cache w) as [r w'] eqn:H. unfold get in H.
  destruct (effective_use_cache _ _) eqn:Hc.
  - destruct (truthy (retrieve uri w)); [inversion H; auto|].
    apply get_loop_cache in H. destruct H as [?|(_ & ?)]; auto.
  - apply get_loop_cache in H. destruct H as [?|(? & _)]; [auto|discriminate].
Qed.


(** X4.  A client as [__init__] leaves it has no session: [__init__]
    assigns [None] to [_session] after [auth] has set it.  Unless the call
    asks for the cache itself, its [get] sends nothing, sleeps once and
    raises [AttributeError]; its [post] sends nothing, sleeps once and
    returns [None].  Calling [auth] again puts the session in place. *)
Theorem client_has_no_session_after_init username password uri use_cache
    command payload headers w :
  use_cache <> Some true ->
  let self := __init__ username password in
  fst (get self uri use_cache w) = Raise AttributeError
  /\ sent (snd (get self uri use_cache w)) = sent w
  /\ sleeps (snd (get self uri use_cache w)) = (sleeps w ++ [SLEEP_TIME])%list
  /\ fst (post self uri command payload headers w) = Ret JNull
  /\ sent (snd (post self uri command payload headers w)) = sent w
  /\ sleeps (snd (post self uri command payload headers w))
     = (sleeps w ++ [SLEEP_TIME])%list
  /\ _session (auth self username password) = Some (username, password).
Proof.
  intros Huc self.
  assert (Hc : effective_use_cache (cache_query_requests self) use_cache = false).
  { destruct use_cache as [[]|]; [congruence|reflexivity|reflexivity]. }
  unfold get. rewrite Hc. repeat split.
Qed.

Lemma get_loop_soft_failure self uri c w session :
  _session self = Some session ->
  failing (server (sent w) (Get (strip "/" uri))) ->
  handled (server (sent w ++ [Get (strip "/" uri)])%list (Get (strip "/" uri))) ->
  exists w',
    get_loop self uri c RETRIES w = (Ret JNull, w')
    /\ sent w' = (sent w ++ [Get (strip "/" uri); Get (strip "/" uri)])%list
    /\ sleeps w' = (sleeps w ++ [SLEEP_TIME])%list
    /\ cache w' = cache w.
Proof.
  intros Hs Hfirst Hsecond. set (rq := Get (strip "/" uri)) in *.
  assert (Hretry : forall w1,
    sent w1 = (sent w ++ [rq])%list -> sleeps w1 = sleeps w -> cache w1 = cache w ->
    exists w',
      get_loop self uri c 0
        (sleep SLEEP_TIME
           (logger INFO
              [Text ("GET request failed. Retrying after "
                     ++ str_Z SLEEP_TIME ++ " seconds...")] w1))
      = (Ret JNull, w')
      /\ sent w' = (sent w ++ [rq; rq])%list
      /\ sleeps w' = (sleeps w ++ [SLEEP_TIME])%list
      /\ cache w' = cache w).
  { intros w1 Hsent Hsl Hca. cbn [get_loop]. unfold try_get. rewrite Hs.
    unfold http. cbn [sent sleep logger]. fold rq. rewrite Hsent.
    destruct (server (sent w ++ [rq])%list rq) as [res|[| |name]];
      simpl in Hsecond; try contradiction.
    - destruct (raises_for_status res) eqn:Hr.
      + eexists. split; [reflexivity|]. simpl.
        rewrite Hsl, Hca, <- app_assoc.
        destruct (json_body res), (status_code res =? 403); repeat split.
      + destruct Hsecond as [?|Hj]; [discriminate|]. rewrite Hj.
        eexists. split; [reflexivity|]. simpl.
        rewrite Hsl, Hca, <- app_assoc. repeat split.
    - eexists. split; [reflexivity|]. simpl.
      rewrite Hsl, Hca, <- app_assoc. repeat split.
    - eexists. split; [reflexivity|]. simpl.
      rewrite Hsl, Hca, <- app_assoc. repeat split. }
  unfold RETRIES. cbn [get_loop]. unfold try_get at 1. rewrite Hs.
  unfold http. fold rq.
  destruct (server (sent w) rq) as [res|f]; simpl in Hfirst.
  - destruct (raises_for_status res) eqn:Hr.
    + cbv beta iota. apply Hretry; reflexivity.
    + destruct Hfirst as [?|Hj]; [discriminate|]. rewrite Hj.
      cbv beta iota. apply Hretry; reflexivity.
  - cbv beta iota. apply Hretry; reflexivity.
Qed.

(** X5.  With a session in place and no cache hit, when the first attempt
    fails in any way and the retry fails with a refused connection, a
    timeout, an HTTP error status or a body that does not decode, [get]
    returns [None]: it has sent the request twice, slept [SLEEP_TIME] once
    and left the cache as it was. *)
Theorem get_soft_failure self uri use_cache w session :
  _session self = Some session ->
  effective_use_cache (cache_query_requests self) use_cache = false
  \/ truthy (retrieve uri w) = false ->
  failing (server (sent w) (Get (strip "/" uri))) ->
  handled (server (sent w ++ [Get (strip "/" uri)])%list (Get (strip "/" uri))) ->
  exists w',
    get self uri use_cache w = (Ret JNull, w')
    /\ sent w' = (sent w ++ [Get (strip "/" uri); Get (strip "/" uri)])%list
    /\ sleeps w' = (sleeps w ++ [SLEEP_TIME])%list
    /\ cache w' = cache w.
Proof.
  intros Hs Hmiss Hfirst Hsecond.
  set (c := effective_use_cache (cache_query_requests self) use_cache) in *.
  assert (Hget : get self uri use_cache w = get_loop self uri c RETRIES w).
  { unfold get. fold c. destruct c; [|reflexivity].
    destruct Hmiss as [?|Hm]; [discriminate|]. by rewrite Hm. }
  rewrite Hget. by eapply get_loop_soft_failure.
Qed.


(** ** Further properties of [post] *)

Lemma try_post_effects self uri command payload headers w r w1 :
  try_post self uri command payload headers w = (r, w1) ->
  cache w1 = cache w /\ sleeps w1 = sleeps w
  /\ (sent w1 = sent w
      \/ sent w1 = (sent w ++ [Post (strip "/" uri ++ "/" ++ command)
                                 headers payload 30])%list).
Proof.
  unfold try_post, http. intros H.
  destruct (_session self); [|inversion H; auto].
  destruct (server _ _); [|inversion H; simpl; auto].
  destruct (raises_for_status res); [inversion H; simpl; auto|].
  destruct (json_body res); inversion H; simpl; auto.
Qed.

Lemma post_give_up_effects self uri command payload e w r w1 :
  post_give_up self uri command payload e w = (r, w1) ->
  sent w1 = sent w /\ sleeps w1 = sleeps w /\ cache w1 = cache w.
Proof.
  unfold post_give_up. intros H.
  destruct e; inversion H; auto.
  destruct (json_body res); [destruct (status_code res =? 403)|];
    inversion H; auto.
Qed.

Lemma post_give_up_raise self uri command payload e w e' w1 :
  post_give_up self uri command payload e w = (Raise e', w1) ->
  exists res, e = HTTPError res
    /\ ((e' = RuntimeError "Access was denied" /\ status_code res = 403
         /\ json_body res <> None)
        \/ (e' = JSONDecodeError /\ json_body res = None)).
Proof.
  unfold post_give_up. intros H.
  destruct e; try discriminate. exists res. split; [reflexivity|].
  destruct (json_body res) eqn:Hj.
  - destruct (status_code res =? 403) eqn:H403; [|discriminate].
    inversion H; subst. left. apply Z.eqb_eq in H403. by repeat split.
  - inversion H; subst. by right.
Qed.

Lemma post_loop_raise self uri command payload headers n : forall w e w',
  post_loop self uri command payload headers n w = (Raise e, w') ->
  e = RuntimeError "Access was denied" \/ e = JSONDecodeError.
Proof.
  induction n as [|n IH]; intros w e w' H; simpl in H;
    destruct (try_post self uri command payload headers w)
      as [[b|e0] w1] eqn:Ht; try discriminate.
  - apply post_give_up_raise in H.
    destruct H as (res & _ & [(-> & _)|(-> & _)]); auto.
  - by eapply IH.
Qed.

(** X6.  [post] lets two exceptions out and no other: the
    [RuntimeError('Access was denied')] of a 403, and the [JSONDecodeError]
    of an HTTP error whose body does not decode.  Every other failure,
    whatever its class, ends in a returned [None]. *)
Theorem post_raises_only_two self uri command payload headers w :
  match post self uri command payload headers w with
  | (Raise e, _) => e = RuntimeError "Access was denied" \/ e = JSONDecodeError
  | (Ret _, _) => True
  end.
Proof.
  destruct (post self uri command payload headers w) as [[v|e] w'] eqn:H;
    [exact I|].
  by eapply post_loop_raise.
Qed.

Lemma post_loop_traffic self uri command payload headers n : forall w r w',
  post_loop self uri command payload headers n w = (r, w') ->
  exists m k,
    (m <= S n)%nat /\ (k <= n)%nat /\ (m <= S k)%nat
    /\ sent w' = (sent w ++ replicate m (Post (strip "/" uri ++ "/" ++ command)
                                           headers payload 30))%list
    /\ sleeps w' = (sleeps w ++ replicate k SLEEP_TIME)%list
    /\ cache w' = cache w.
Proof.
  induction n as [|n IH]; intros w r w' H; simpl in H;
    destruct (try_post self uri command payload headers w)
      as [[b|e] w1] eqn:Ht;
    apply try_post_effects in Ht; destruct Ht as (Hca & Hsl & Hsent).
  - inversion H; subst.
    destruct Hsent as [Hs|Hs]; [exists O, O|exists 1%nat, O];
      rewrite Hs, Hsl, ?app_nil_r; repeat split; auto; lia.
  - apply post_give_up_effects in H. destruct H as (Hs' & Hsl' & Hca').
    destruct Hsent as [Hs|Hs]; [exists O, O|exists 1%nat, O];
      rewrite Hs', Hsl', Hca', Hs, Hsl, ?app_nil_r; repeat split; auto; lia.
  - inversion H; subst.
    destruct Hsent as [Hs|Hs]; [exists O, O|exists 1%nat, O];
      rewrite Hs, Hsl, ?app_nil_r; repeat split; auto; lia.
  - apply IH in H. destruct H as (m & k & Hm & Hk & Hmk & Hs' & Hsl' & Hca').
    simpl in Hs', Hsl', Hca'. rewrite Hsl in Hsl'. rewrite Hca in Hca'.
    destruct Hsent as [Hs|Hs]; rewrite Hs in Hs'.
    + exists m, (S k). rewrite Hs', Hsl', <- app_assoc.
      repeat split; auto; lia.
    + exists (S m), (S k). rewrite Hs', Hsl', <- !app_assoc.
      repeat split; auto; lia.
Qed.

(** X7.  One [post] sends at most [1 + RETRIES] requests, all of them the
    same POST to [uri.strip('/')], a slash and the command, with the given
    headers and payload and the timeout 30; it sleeps [SLEEP_TIME] at most
    [RETRIES] times; and it never reads or writes the cache. *)
Theorem post_traffic self uri command payload headers w :
  exists m k,
    (m <= 1 + RETRIES)%nat /\ (k <= RETRIES)%nat /\ (m <= S k)%nat
    /\ sent (snd (post self uri command payload headers w))
       = (sent w ++ replicate m (Post (strip "/" uri ++ "/" ++ command)
                                   headers payload 30))%list
    /\ sleeps (snd (post self uri command payload headers w))
       = (sleeps w ++ replicate k SLEEP_TIME)%list
    /\ cache (snd (post self uri command payload headers w)) = cache w.
Proof.
  unfold post.
  destruct (post_loop self uri command payload headers RETRIES w)
    as [r w'] eqn:H.
  apply post_loop_traffic in H. exact H.
Qed.

(** X8.  When the transport raises an exception of a class that neither
    operation names, on the first attempt and on the retry, [get] lets it
    out to the caller while [post] logs it and returns [None]. *)
Theorem unnamed_exception_get_raises_post_returns self session uri use_cache
    command payload headers w name :
  _session self = Some session ->
  effective_use_cache (cache_query_requests self) use_cache = false
  \/ truthy (retrieve uri w) = false ->
  (forall history rq, server history rq = Fails (Broken name)) ->
  fst (get self uri use_cache w) = Raise (OtherException name)
  /\ fst (post self uri command payload headers w) = Ret JNull.
Proof.
  intros Hs Hmiss Hsrv. split.
  - set (c := effective_use_cache (cache_query_requests self) use_cache) in *.
    assert (Hget : get self uri use_cache w = get_loop self uri c RETRIES w).
    { unfold get. fold c. destruct c; [|reflexivity].
      destruct Hmiss as [?|Hm]; [discriminate|]. by rewrite Hm. }
    rewrite Hget. unfold RETRIES. cbn [get_loop].
    unfold try_get, http. rewrite Hs, !Hsrv. reflexivity.
  - unfold post, RETRIES. cbn [post_loop].
    unfold try_post, http. rewrite Hs, !Hsrv. reflexivity.
Qed.


(** ** Further properties of [get_paged] *)

Lemma get_paged_loop_shape self url sep page_size use_cache :
  forall fuel results total w v w',
    get_paged_loop fuel self url sep page_size use_cache results total w
      = Some (Ret v, w') ->
    v = JNull \/ exists rs, v = envelope rs.
Proof.
  induction fuel as [|fuel IH]; intros results total w v w' H; [discriminate|].
  simpl in H.
  destruct (more_pages results total) as [[|]|]; try (inversion H; eauto; fail).
  destruct (get self _ use_cache w) as [[response|e] w1]; [|discriminate].
  destruct (is_None response); [inversion H; auto|].
  destruct (subscript response "value") as [value|]; [|discriminate].
  destruct (py_len value) as [[|n]|]; try (inversion H; eauto; fail).
  destruct (py_iter value) as [items|]; [|discriminate].
  destruct (is_minus_one total).
  - destruct (subscript response "@odata.count"); [|discriminate].
    by eapply IH.
  - by eapply IH.
Qed.

(** X9.  Whenever [get_paged] returns, what it returns is [None] or a
    dictionary with the single key ['value'] holding a list; so the callers
    that index the result with [['value']] get a list, or a [TypeError] when
    a page request failed. *)
Theorem get_paged_returns_envelope_or_None fuel self url page_size use_cache w :
  match get_paged fuel self url page_size use_cache w with
  | Some (Ret v, _) =>
      (v = JNull /\ subscript v "value" = Raise TypeError)
      \/ (exists rs, v = JObj [("value", JArr rs)]
                     /\ subscript v "value" = Ret (JArr rs))
  | _ => True
  end.
Proof.
  destruct (get_paged fuel self url page_size use_cache w)
    as [[[v|e] w']|] eqn:H; try exact I.
  assert (Hv : v = JNull \/ exists rs, v = envelope rs).
  { unfold get_paged in H.
    destruct (urlparse url); [|discriminate].
    destruct (parse_query a); [|discriminate].
    destruct (_ || _); [discriminate|].
    by eapply get_paged_loop_shape. }
  destruct Hv as [->|[rs ->]]; [left|right; exists rs]; by split.
Qed.

Lemma py_iter_length value n items :
  py_len value = Ret n -> py_iter value = Ret items -> length items = n.
Proof.
  destruct value; simpl; try discriminate; intros Hn Hi;
    inversion Hn; inversion Hi; subst; clear.
  - induction s as [|c s IH]; simpl; [reflexivity|by rewrite IH].
  - reflexivity.
  - by rewrite length_map.
Qed.

Lemma get_paged_loop_ends self url sep page_size use_cache (T : Z) :
  T <> -1 ->
  forall fuel results w,
    (Z.to_nat (T - Z.of_nat (length results)) < fuel)%nat ->
    is_Some (get_paged_loop fuel self url sep page_size use_cache
               results (JNum T) w).
Proof.
  intros HT. induction fuel as [|fuel IH]; intros results w Hfuel; [lia|].
  simpl. unfold more_pages, is_minus_one, len_lt.
  destruct (T =? -1) eqn:E; [apply Z.eqb_eq in E; congruence|].
  destruct (Z.of_nat (length results) <? T) eqn:Hlt; [|eauto].
  apply Z.ltb_lt in Hlt.
  destruct (get self _ use_cache w) as [[response|e] w1]; [|eauto].
  destruct (is_None response); [eauto|].
  destruct (subscript response "value") as [value|]; [|eauto].
  destruct (py_len value) as [[|n]|] eqn:Hn; [eauto| |eauto].
  destruct (py_iter value) as [items|] eqn:Hi; [|eauto].
  apply IH. rewrite length_app, (py_iter_length _ _ _ Hn Hi). lia.
Qed.

(** X10.  Once the first page has brought records and reported a total [T]
    other than [-1], the retrieval ends within [T + 2] iterations whatever
    the server sends afterwards: every further iteration ends the loop or
    adds at least one record. *)
Theorem get_paged_ends_after_total self url parsed_url page_size use_cache
    w first items w1 T extra :
  pageable url parsed_url ->
  get self (paging_url url (query_separator_of parsed_url) page_size [])
    use_cache w = (Ret first, w1) ->
  carries first items ->
  items <> [] ->
  subscript first "@odata.count" = Ret (JNum T) ->
  T <> -1 ->
  is_Some (get_paged (S (S (Z.to_nat T + extra))) self url page_size use_cache w).
Proof.
  intros Hurl Hget Hvalue Hne Hcount HT.
  rewrite (get_paged_enters_loop _ _ _ _ _ _ _ Hurl).
  rewrite (get_paged_loop_page _ self url _ page_size use_cache [] (JNum (-1))
             first items w w1 eq_refl Hget Hvalue Hne).
  simpl is_minus_one. cbv iota. rewrite Hcount.
  apply get_paged_loop_ends; [exact HT|]. lia.
Qed.



(** ** The cache under the retrievals *)

Lemma get_leaves_cache self uri use_cache w :
  effective_use_cache (cache_query_requests self) use_cache = false ->
  cache (snd (get self uri use_cache w)) = cache w.
Proof.
  intros Hc. unfold get. rewrite Hc.
  destruct (get_loop self uri false RETRIES w) as [r w'] eqn:H.
  apply get_loop_cache in H. destruct H as [?|(? & _)]; [auto|discriminate].
Qed.

Lemma get_paged_loop_leaves_cache self url sep page_size use_cache :
  effective_use_cache (cache_query_requests self) use_cache = false ->
  forall fuel results total w r w',
    get_paged_loop fuel self url sep page_size use_cache results total w
      = Some (r, w') ->
    cache w' = cache w.
Proof.
  intros Hc. induction fuel as [|fuel IH]; intros results total w r w' H;
    [discriminate|].
  simpl in H.
  destruct (more_pages results total) as [[|]|]; try (by inversion H).
  pose proof (get_leaves_cache self
                (paging_url url sep page_size results) use_cache w Hc) as Hg.
  destruct (get self _ use_cache w) as [[response|e] w1]; simpl in Hg;
    [|by inversion H; subst].
  destruct (is_None response); [by inversion H; subst|].
  destruct (subscript response "value") as [value|]; [|by inversion H; subst].
  destruct (py_len value) as [[|n]|]; try (by inversion H; subst).
  destruct (py_iter value) as [items|]; [|by inversion H; subst].
  destruct (is_minus_one total).
  - destruct (subscript response "@odata.count"); [|by inversion H; subst].
    apply IH in H. congruence.
  - apply IH in H. congruence.
Qed.

Lemma get_chunked_loop_leaves_cache self base_url query filter :
  cache_query_requests self = false ->
  forall batches response_list w,
    cache (snd (get_chunked_loop self base_url query filter batches
                  response_list w)) = cache w.
Proof.
  intros Hflag. induction batches as [|list_chunk rest IH];
    intros response_list w; [reflexivity|].
  cbn [get_chunked_loop].
  assert (Hc : effective_use_cache (cache_query_requests self) None = false)
    by (by rewrite Hflag).
  pose proof (get_leaves_cache self
                (chunk_uri base_url query filter list_chunk) None w Hc) as Hg.
  destruct (get self _ None w) as [[response|e] w1]; simpl in Hg; [|exact Hg].
  destruct (negb (truthy response)); [exact Hg|].
  destruct (subscript response "value") as [value|]; [|exact Hg].
  destruct (py_iter value) as [items|]; [|exact Hg].
  by rewrite IH.
Qed.

(** X12.  With the instance flag off, [get_chunked] never touches the
    cache, since it calls [get] without a per-call override; [get_paged]
    hands its own [use_cache] to every page request, so it leaves the cache
    alone unless that argument is [True]. *)
Theorem retrievals_leave_cache self url filter to_chunk_list chunk_size
    fuel page_size use_cache w :
  cache_query_requests self = false ->
  use_cache <> Some true ->
  cache (snd (get_chunked self url filter to_chunk_list chunk_size w)) = cache w
  /\ match get_paged fuel self url page_size use_cache w with
     | Some (_, w') => cache w' = cache w
     | None => True
     end.
Proof.
  intros Hflag Huc. split.
  - unfold get_chunked.
    destruct (urlparse url); [|reflexivity].
    destruct (parse_query a); [|reflexivity].
    destruct (chunk to_chunk_list chunk_size); [|reflexivity].
    by apply get_chunked_loop_leaves_cache.
  - assert (Hc : effective_use_cache (cache_query_requests self) use_cache = false).
    { rewrite Hflag. destruct use_cache as [[]|]; [congruence|reflexivity..]. }
    destruct (get_paged fuel self url page_size use_cache w) as [[r w']|] eqn:H;
      [|exact I].
    unfold get_paged in H.
    destruct (urlparse url); [|by inversion H].
    destruct (parse_query a); [|by inversion H].
    destruct (_ || _); [by inversion H|].
    by eapply get_paged_loop_leaves_cache.
Qed.


(** ** Further properties of [get_chunked] and of [parse_query] *)

(** X13.  The degenerate inputs of [get_chunked], for a URL that parses: a
    negative chunk size yields no batch at all, so the result is the empty
    list and the values are silently dropped; an empty list of values gives
    the empty list, whatever the chunk size other than zero.  In both cases
    no request is made and the world is left as it was. *)
Theorem get_chunked_degenerate self url filter to_chunk_list parsed_url query w :
  urlparse url = Ret parsed_url ->
  parse_query parsed_url = Ret query ->
  (forall size, size < 0 ->
     get_chunked self url filter to_chunk_list size w = (Ret (JArr []), w))
  /\ (forall size, size <> 0 ->
        get_chunked self url filter [] size w = (Ret (JArr []), w)).
Proof.
  intros Hparse Hquery. unfold get_chunked. rewrite Hparse, Hquery.
  split.
  - intros size Hneg. unfold chunk.
    destruct (size =? 0) eqn:E0; [apply Z.eqb_eq in E0; lia|].
    destruct (size <? 0) eqn:E1; [reflexivity|apply Z.ltb_ge in E1; lia].
  - intros size Hnz. unfold chunk.
    destruct (size =? 0) eqn:E0; [apply Z.eqb_eq in E0; lia|].
    destruct (size <? 0) eqn:E1; [reflexivity|].
    apply Z.ltb_ge in E1. simpl length.
    rewrite Nat.div_small by lia. reflexivity.
Qed.

Lemma parse_params_raises_unpack : forall pieces d e,
  parse_params pieces d = Raise e -> e = ValueError unpack_message.
Proof.
  induction pieces as [|param rest IH]; intros d e H; simpl in H; [discriminate|].
  destruct (String.eqb param ""); [by eapply IH|].
  destruct (split_once "=" param) as [[k v]|]; [by eapply IH|].
  by inversion H.
Qed.

Lemma parse_params_bare piece : forall pieces d,
  In piece pieces -> piece <> "" -> split_once "=" piece = None ->
  parse_params pieces d = Raise (ValueError unpack_message).
Proof.
  induction pieces as [|param rest IH]; intros d Hin Hne Hbare; [destruct Hin|].
  simpl. destruct Hin as [->|Hin].
  - destruct (String.eqb piece "") eqn:E; [apply String.eqb_eq in E; congruence|].
    by rewrite Hbare.
  - destruct (String.eqb param ""); [by apply IH|].
    destruct (split_once "=" param) as [[k v]|]; [by apply IH|reflexivity].
Qed.

(** X14.  A query string with a piece that is not empty and has no [=]
    (as in [?flag]) cannot be parsed: both [get_paged] and [get_chunked]
    raise the unpacking [ValueError] of [parse_query], before any request
    and leaving the world as it was. *)
Theorem bare_parameter_raises self url parsed_url piece fuel page_size
    use_cache filter to_chunk_list chunk_size w :
  urlparse url = Ret parsed_url ->
  In piece (split "&" (query parsed_url)) ->
  piece <> "" ->
  contains "=" piece = false ->
  get_paged fuel self url page_size use_cache w
    = Some (Raise (ValueError unpack_message), w)
  /\ get_chunked self url filter to_chunk_list chunk_size w
    = (Raise (ValueError unpack_message), w).
Proof.
  intros Hparse Hin Hne Hbare.
  assert (Hsplit : split_once "=" piece = None).
  { clear -Hbare. induction piece as [|a piece IH]; [reflexivity|].
    simpl in *. destruct (Ascii.eqb a "="); [discriminate|].
    by rewrite IH. }
  assert (Hq : parse_query parsed_url = Raise (ValueError unpack_message))
    by (by eapply parse_params_bare).
  unfold get_paged, get_chunked. by rewrite Hparse, Hq.
Qed.

Lemma dict_get_None_keys {A : Type} key (d : list (string * A)) :
  dict_get key d = None <-> ~ In key (map fst d).
Proof.
  induction d as [|[k x] d IH]; simpl; [split; [intros _ []|reflexivity]|].
  destruct (String.eqb k key) eqn:E.
  - apply String.eqb_eq in E. split; [discriminate|].
    intros H. exfalso. apply H. by left.
  - apply String.eqb_neq in E. rewrite IH. split.
    + intros H [Hk|Hin]; [congruence|auto].
    + intros H Hin. apply H. by right.
Qed.

Lemma dict_set_keys {A : Type} key (v : A) d :
  map fst (dict_set key v d)
  = if dict_mem key d then map fst d else (map fst d ++ [key])%list.
Proof.
  unfold dict_mem. induction d as [|[k x] d IH]; simpl; [reflexivity|].
  destruct (String.eqb k key) eqn:E; simpl; [reflexivity|].
  rewrite IH. by destruct (dict_get key d).
Qed.

Lemma dict_set_NoDup {A : Type} key (v : A) d :
  List.NoDup (map fst d) -> List.NoDup (map fst (dict_set key v d)).
Proof.
  intros Hd. rewrite dict_set_keys. unfold dict_mem.
  destruct (dict_get key d) eqn:Hg; [exact Hd|].
  apply dict_get_None_keys in Hg.
  apply NoDup_ListNoDup, NoDup_app. apply NoDup_ListNoDup in Hd.
  split; [exact Hd|]. split.
  - intros x Hx ->%list_elem_of_singleton. by apply list_elem_of_In in Hx.
  - apply NoDup_singleton.
Qed.

Lemma split_once_cut c : forall s k v,
  split_once c s = Some (k, v) -> s = k ++ String c v.
Proof.
  induction s as [|a s IH]; intros k v H; simpl in H; [discriminate|].
  destruct (Ascii.eqb a c) eqn:E.
  - apply Ascii.eqb_eq in E. inversion H; subst. reflexivity.
  - destruct (split_once c s) as [[k' v']|]; [|discriminate].
    inversion H; subst. by rewrite (IH k' v eq_refl).
Qed.

Lemma split_once_key c : forall s k v,
  split_once c s = Some (k, v) -> contains c k = false.
Proof.
  induction s as [|a s IH]; intros k v H; simpl in H; [discriminate|].
  destruct (Ascii.eqb a c) eqn:E.
  - inversion H; subst. reflexivity.
  - destruct (split_once c s) as [[k' v']|]; [|discriminate].
    inversion H; subst. simpl. rewrite E. by eapply IH.
Qed.

Lemma dict_set_In {A : Type} key (v : A) d kv :
  In kv (dict_set key v d) -> kv = (key, v) \/ In kv d.
Proof.
  induction d as [|[k x] d IH]; simpl; [intros [<-|[]]; auto|].
  destruct (String.eqb k key) eqn:E; simpl.
  - apply String.eqb_eq in E. subst. intros [<-|?]; auto.
  - intros [?|Hin]; [auto|]. destruct (IH Hin); auto.
Qed.

Lemma parse_params_sound : forall pieces d q,
  parse_params pieces d = Ret q ->
  List.NoDup (map fst d) ->
  List.NoDup (map fst q)
  /\ forall kv, In kv q ->
       In kv d \/ (In (render kv) pieces /\ contains "=" (fst kv) = false).
Proof.
  induction pieces as [|param rest IH]; intros d q H Hd; simpl in H.
  - inversion H; subst. auto.
  - destruct (String.eqb param "").
    { destruct (IH _ _ H Hd) as [Hn Hin]. split; [exact Hn|].
      intros kv Hkv. destruct (Hin kv Hkv) as [?|[? ?]]; simpl; auto. }
    destruct (split_once "=" param) as [[k v]|] eqn:Hs; [|discriminate].
    destruct (IH _ _ H (dict_set_NoDup k v d Hd)) as [Hn Hin].
    split; [exact Hn|]. intros kv Hkv.
    destruct (Hin kv Hkv) as [Hset|[Hrest ?]]; [|simpl; auto].
    apply dict_set_In in Hset. destruct Hset as [->|?]; [|auto].
    right. split.
    + left. apply split_once_cut in Hs. exact Hs.
    + by eapply split_once_key.
Qed.

(** X15.  [parse_query] either raises the unpacking [ValueError] or returns
    a dictionary in which no name occurs twice and every entry [k], [v] is
    a piece [k=v] of the query string, cut at its first [=]. *)
Theorem parse_query_sound parsed_url :
  match parse_query parsed_url with
  | Raise e => e = ValueError unpack_message
  | Ret q =>
      List.NoDup (map fst q)
      /\ forall k v, In (k, v) q ->
           In (k ++ "=" ++ v) (split "&" (query parsed_url))
           /\ contains "=" k = false
  end.
Proof.
  unfold parse_query.
  destruct (parse_params (split "&" (query parsed_url)) []) as [q|e] eqn:H.
  - destruct (parse_params_sound _ _ _ H (List.NoDup_nil _)) as [Hn Hin].
    split; [exact Hn|]. intros k v Hkv.
    destruct (Hin _ Hkv) as [[]|Hpiece]. exact Hpiece.
  - by eapply parse_params_raises_unpack.
Qed.


Lemma contains_append c (a b : string) :
  contains c (a ++ b) = contains c a || contains c b.
Proof.
  induction a as [|x a IH]; [reflexivity|].
  rewrite append_cons. simpl. rewrite IH. by rewrite orb_assoc.
Qed.

Lemma split_plain c p : contains c p = false -> split c p = [p].
Proof.
  induction p as [|a p IH]; [reflexivity|]. simpl.
  destruct (Ascii.eqb a c); [discriminate|]. intros H. by rewrite IH.
Qed.

Lemma split_app c p rest :
  contains c p = false -> split c (p ++ String c rest) = p :: split c rest.
Proof.
  induction p as [|a p IH].
  - intros _. change ("" ++ String c rest) with (String c rest).
    simpl. by rewrite Ascii.eqb_refl.
  - rewrite append_cons. simpl.
    destruct (Ascii.eqb a c); [discriminate|]. intros H. by rewrite IH.
Qed.

Lemma split_join c : forall ps p,
  Forall (fun s => contains c s = false) (p :: ps) ->
  split c (join (String c "") (p :: ps)) = p :: ps.
Proof.
  induction ps as [|q ps IH]; intros p Hall.
  - apply split_plain. by inversion Hall.
  - rewrite join_cons.
    change (String c "" ++ join (String c "") (q :: ps))
      with (String c (join (String c "") (q :: ps))).
    inversion Hall; subst. rewrite split_app by assumption.
    by rewrite IH.
Qed.

Lemma split_once_append c k v :
  contains c k = false -> split_once c (k ++ String c v) = Some (k, v).
Proof.
  induction k as [|a k IH].
  - intros _. change ("" ++ String c v) with (String c v).
    simpl. by rewrite Ascii.eqb_refl.
  - rewrite append_cons. simpl.
    destruct (Ascii.eqb a c); [discriminate|]. intros H. by rewrite IH.
Qed.

Lemma render_not_empty kv : String.eqb (render kv) "" = false.
Proof.
  unfold render. destruct (fst kv) as [|a k]; [reflexivity|].
  by rewrite append_cons.
Qed.

Lemma parse_params_render : forall items d,
  Forall plain items ->
  List.NoDup (map fst (d ++ items)%list) ->
  parse_params (map render items) d = Ret (d ++ items)%list.
Proof.
  induction items as [|[k v] items IH]; intros d Hplain Hnodup.
  - simpl. by rewrite app_nil_r.
  - inversion Hplain as [|? ? (Hk1 & Hk2 & Hv) Hrest]; subst. simpl in Hk1, Hk2, Hv.
    cbn [map parse_params]. rewrite render_not_empty.
    unfold render at 1. cbn [fst snd].
    change (k ++ "=" ++ v) with (k ++ String "=" v).
    rewrite (split_once_append _ _ _ Hk2).
    assert (Hfresh : dict_get k d = None).
    { apply dict_get_None_keys. intros Hin.
      rewrite map_app in Hnodup. simpl in Hnodup.
      apply List.NoDup_remove_2 in Hnodup. apply Hnodup, in_or_app. by left. }
    rewrite (dict_set_absent _ _ _ Hfresh).
    rewrite IH; [by rewrite <- app_assoc|exact Hrest|by rewrite <- app_assoc].
Qed.

(** X16.  Parsing undoes the writing loop of [get_chunked]: a dictionary
    with distinct names, no [&] or [=] in a name and no [&] in a value,
    written as [k=v] pieces joined by [&], is parsed back by [parse_query]
    to the same entries in the same order.  A value may hold [=]: a piece
    is cut at its first [=] only. *)
Theorem parse_query_inverts_build_query parsed_url items :
  query parsed_url = build_query items true "" ->
  List.NoDup (map fst items) ->
  Forall plain items ->
  parse_query parsed_url = Ret items.
Proof.
  intros Hq Hnodup Hplain. unfold parse_query.
  rewrite Hq, build_query_join.
  destruct items as [|kv items]; [reflexivity|].
  cbn [map].
  change "&" with (String "&"%char "") at 1.
  rewrite split_join.
  - by apply (parse_params_render (kv :: items) []).
  - apply (Forall_map render (fun s => contains "&" s = false) (kv :: items)).
    eapply Forall_impl; [exact Hplain|].
    intros [k v] (Hk & _ & Hv). unfold render. simpl in *.
    rewrite !contains_append, Hk, Hv. reflexivity.
Qed.

(** ** Chunked retrieval: the request of a batch *)

(** A query string made of [name=value] parameters with distinct names
    parses to those parameters, in their order. *)
Lemma parse_query_rendered parsed_url items :
  query parsed_url = join "&" (map render items) ->
  Forall plain items ->
  List.NoDup (map fst items) ->
  parse_query parsed_url = Ret items.
Proof.
  intros Hq Hplain Hnodup. unfold parse_query. rewrite Hq.
  destruct items as [|kv items]; [reflexivity|].
  cbn [map].
  change "&" with (String "&"%char "") at 1.
  rewrite split_join.
  - by apply (parse_params_render (kv :: items) []).
  - apply (Forall_map render (fun s => contains "&" s = false) (kv :: items)).
    eapply Forall_impl; [exact Hplain|].
    intros [k v] (Hk & _ & Hv). unfold render. simpl in *.
    rewrite !contains_append, Hk, Hv. reflexivity.
Qed.

(** With a session in place every attempt of [get] goes out. *)
Lemma try_get_sends self uri c w session r w1 :
  _session self = Some session ->
  try_get self uri c w = (r, w1) ->
  sent w1 = (sent w ++ [Get (strip "/" uri)])%list.
Proof.
  unfold try_get, http. intros Hs H. rewrite Hs in H.
  destruct (server _ _); [|by inversion H].
  destruct (raises_for_status res); [by inversion H|].
  destruct (json_body res), c; by inversion H.
Qed.

Lemma get_loop_sends self uri c session n : forall w r w',
  _session self = Some session ->
  get_loop self uri c n w = (r, w') ->
  exists m, (m <= n)%nat
    /\ sent w' = (sent w ++ replicate (S m) (Get (strip "/" uri)))%list.
Proof.
  induction n as [|n IH]; intros w r w' Hs H; simpl in H;
    destruct (try_get self uri c w) as [[b|e] w1] eqn:Ht;
    apply (try_get_sends _ _ _ _ _ _ _ Hs) in Ht.
  - inversion H; subst. exists O. split; [lia|exact Ht].
  - apply get_give_up_effects in H. destruct H as (Hs' & _).
    exists O. split; [lia|]. by rewrite Hs', Ht.
  - inversion H; subst. exists O. split; [lia|exact Ht].
  - apply (IH _ _ _ Hs) in H. destruct H as (m & Hm & Hs').
    simpl in Hs'. rewrite Ht in Hs'.
    exists (S m). split; [lia|]. rewrite Hs', <- app_assoc. reflexivity.
Qed.

(** C5.  Let the query string of the URL be made of [name=value]
    parameters [items] with distinct names, and let [D] be the per-value
    clauses of a batch joined by [" or "].  Let [merged] be [items] with
    the value [A] of its [$filter] replaced, where it stands, by
    [(A) and (D)], or, when [items] has no [$filter], [items] followed by
    [$filter=D]; let [uri] be scheme, host and path of the URL, [?], and
    [merged] written as [name=value] joined by [&].  Then, once the earlier
    batches have been answered, [get_chunked] calls [get] on [uri] for the
    batch and what that call does settles the retrieval: an exception it
    raises is the exception of [get_chunked], a falsy body makes
    [get_chunked] return [None], and the record list of the last batch
    completes the list returned; the world left is then the world after
    that call.  With a session in place and the instance cache off, the
    call sends [uri], stripped of [/] at both ends, once or, after a failed
    attempt, twice. *)
Theorem get_chunked_merges_filter self url filter to_chunk_list chunk_size
    parsed_url items done list_chunk rest bodies recs w w1 D merged uri :
  urlparse url = Ret parsed_url ->
  query parsed_url = join "&" (map render items) ->
  Forall plain items ->
  List.NoDup (map fst items) ->
  chunk to_chunk_list chunk_size = Ret (done ++ list_chunk :: rest)%list ->
  answered self (map (chunk_uri (base_url_of parsed_url) items filter) done)
    bodies w w1 ->
  Forall2 carries bodies recs ->
  D = join " or " (map (fun v => replace_braces (str v) filter) list_chunk) ->
  (exists pre A post,
      items = (pre ++ ("$filter", A) :: post)%list
      /\ merged
         = (pre ++ ("$filter", ("(" ++ A ++ ") and (" ++ D ++ ")")%string) :: post)%list)
  \/ (dict_get "$filter" items = None
      /\ merged = (items ++ [("$filter", D)])%list) ->
  uri = base_url_of parsed_url ++ join "&" (map render merged) ->
  parse_query parsed_url = Ret items
  /\ chunk_uri (base_url_of parsed_url) items filter list_chunk = uri
  /\ forall r w2,
       get self uri None w1 = (r, w2) ->
       (forall e, r = Raise e ->
          get_chunked self url filter to_chunk_list chunk_size w = (Raise e, w2))
       /\ (forall response, r = Ret response -> truthy response = false ->
             get_chunked self url filter to_chunk_list chunk_size w
             = (Ret JNull, w2))
       /\ (forall response records,
             r = Ret response -> carries response records -> rest = [] ->
             get_chunked self url filter to_chunk_list chunk_size w
             = (Ret (JArr (concat recs ++ records)), w2))
       /\ (forall session,
             _session self = Some session ->
             cache_query_requests self = false ->
             exists m, (m <= RETRIES)%nat
               /\ sent w2
                  = (sent w1 ++ replicate (S m) (Get (strip "/" uri)))%list).
Proof.
  intros Hparse Hq Hplain Hnodup Hchunk Hans Hrecs HD Hmerged Huri.
  pose proof (parse_query_rendered _ _ Hq Hplain Hnodup) as Hquery.
  assert (Hcall : chunk_uri (base_url_of parsed_url) items filter list_chunk = uri).
  { destruct (chunk_uri_explicit (base_url_of parsed_url) items filter
                list_chunk D HD) as [Hin Hout].
    destruct Hmerged as [(pre & A & post & Hitems & ->)|[Hnone ->]]; subst uri.
    - apply Hin; [exact Hitems|].
      apply dict_get_None_keys. intros Hpre. subst items.
      rewrite map_app in Hnodup. simpl in Hnodup.
      apply List.NoDup_remove_2 in Hnodup. apply Hnodup, in_or_app. by left.
    - by apply Hout. }
  split; [exact Hquery|]. split; [exact Hcall|].
  intros r w2 Hget.
  assert (Hrun : get_chunked self url filter to_chunk_list chunk_size w
                 = get_chunked_loop self (base_url_of parsed_url) items filter
                     (list_chunk :: rest) (concat recs) w1).
  { unfold get_chunked. rewrite Hparse, Hquery, Hchunk.
    by rewrite (get_chunked_loop_prefix _ _ _ _ _ _ _ _ [] _ _ Hans Hrecs). }
  rewrite Hrun. cbn [get_chunked_loop]. rewrite Hcall, Hget.
  split; [|split; [|split]].
  - by intros e ->.
  - intros response -> Hf. by rewrite Hf.
  - intros response records -> Hc ->.
    destruct (subscript_is_object _ _ _ Hc) as [Ht _].
    rewrite Ht. cbn [negb]. unfold carries in Hc. rewrite Hc. reflexivity.
  - intros session Hs Hflag. unfold get in Hget. rewrite Hflag in Hget.
    simpl effective_use_cache in Hget. cbv iota in Hget.
    by eapply get_loop_sends.
Qed.

(** ** [get_current_attending_enrollment] *)

Lemma first_attending_cons x l :
  first_attending (x :: l) = if attending x then Some x else first_attending l.
Proof. reflexivity. Qed.

Lemma check_categories_cons x l :
  check_categories (x :: l)
  = if negb (truthy (pydash_get x status_category))
    then Raise (KeyError
           "There is an enrollment that does not contain a System Status Category.")
    else check_categories l.
Proof. reflexivity. Qed.

Lemma first_attending_Some : forall l e,
  first_attending l = Some e ->
  exists before after,
    l = (before ++ e :: after)%list
    /\ Forall (fun x => attending x = false) before
    /\ attending e = true.
Proof.
  induction l as [|x l IH]; intros e H; [discriminate|].
  rewrite first_attending_cons in H.
  destruct (attending x) eqn:Hx.
  - inversion H; subst. exists [], l. repeat split; [constructor|exact Hx].
  - destruct (IH e H) as (before & after & -> & Hb & He).
    exists (x :: before), after. repeat split; [by constructor|exact He].
Qed.

Lemma first_attending_None : forall l,
  first_attending l = None -> Forall (fun x => attending x = false) l.
Proof.
  induction l as [|x l IH]; intros H; [constructor|].
  rewrite first_attending_cons in H.
  destruct (attending x) eqn:Hx; [discriminate|].
  constructor; [exact Hx|by apply IH].
Qed.

Lemma get_current_attending_enrollment_unfold enrollment_periods :
  get_current_attending_enrollment enrollment_periods
  = if negb (truthy enrollment_periods)
    then Raise (ValueError "No enrollments were provided.")
    else match check_categories (as_list enrollment_periods) with
         | Raise e => Raise e
         | Ret _ =>
             match as_list enrollment_periods with
             | [] => Raise (OtherException "IndexError")
             | current_enrollment :: rest =>
                 if negb (attending current_enrollment) then
                   match first_attending rest with
                   | Some enrollment => Ret enrollment
                   | None => Ret current_enrollment
                   end
                 else Ret current_enrollment
             end
         end.
Proof. reflexivity. Qed.

(** X17.  When [get_current_attending_enrollment] returns, it returns one
    of the enrollments it was given: the first one in list order whose
    status category is ['A'] or ['Y'], and, when no enrollment has such a
    category, the first of the list. *)
Theorem get_current_attending_enrollment_choice enrollment_periods chosen :
  get_current_attending_enrollment enrollment_periods = Ret chosen ->
  exists before after,
    as_list enrollment_periods = (before ++ chosen :: after)%list
    /\ Forall (fun x => attending x = false) before
    /\ (attending chosen = true
        \/ (before = [] /\ Forall (fun x => attending x = false) after)).
Proof.
  rewrite get_current_attending_enrollment_unfold.
  destruct (negb (truthy enrollment_periods)); [discriminate|].
  destruct (check_categories (as_list enrollment_periods)); [|discriminate].
  destruct (as_list enrollment_periods) as [|current rest]; [discriminate|].
  destruct (attending current) eqn:Hcur; cbn [negb].
  - intros H. inversion H; subst. exists [], rest.
    repeat split; [constructor|by left].
  - destruct (first_attending rest) as [e|] eqn:Hrest; intros H;
      inversion H; subst.
    + destruct (first_attending_Some _ _ Hrest)
        as (before & after & -> & Hb & He).
      exists (current :: before), after.
      repeat split; [by constructor|by left].
    + exists [], rest. repeat split; [constructor|].
      right. split; [reflexivity|]. by apply first_attending_None.
Qed.

Lemma check_categories_spec : forall l,
  match check_categories l with
  | Ret _ => Forall (fun x => truthy (pydash_get x status_category) = true) l
  | Raise e =>
      e = KeyError
            "There is an enrollment that does not contain a System Status Category."
      /\ Exists (fun x => truthy (pydash_get x status_category) = false) l
  end.
Proof.
  induction l as [|x l IH]; [constructor|].
  rewrite check_categories_cons.
  destruct (truthy (pydash_get x status_category)) eqn:Hx; cbn [negb].
  - destruct (check_categories l).
    + constructor; [exact Hx|exact IH].
    + destruct IH as [-> IH]. split; [reflexivity|by apply Exists_cons_tl].
  - split; [reflexivity|by apply Exists_cons_hd].
Qed.

(** X18.  [get_current_attending_enrollment] raises in two cases and no
    other: [ValueError] when its argument is falsy (no enrollment, [None]),
    and [KeyError] when any enrollment of the list, wherever it stands,
    has no truthy status category.  When it returns, every enrollment has
    one. *)
Theorem get_current_attending_enrollment_errors enrollment_periods :
  match get_current_attending_enrollment enrollment_periods with
  | Raise e =>
      (truthy enrollment_periods = false
       /\ e = ValueError "No enrollments were provided.")
      \/ (truthy enrollment_periods = true
          /\ e = KeyError
                   "There is an enrollment that does not contain a System Status Category."
          /\ Exists (fun x => truthy (pydash_get x status_category) = false)
               (as_list enrollment_periods))
  | Ret _ =>
      truthy enrollment_periods = true
      /\ Forall (fun x => truthy (pydash_get x status_category) = true)
           (as_list enrollment_periods)
  end.
Proof.
  rewrite get_current_attending_enrollment_unfold.
  destruct (truthy enrollment_periods) eqn:Ht; cbn [negb];
    [|left; split; reflexivity].
  pose proof (check_categories_spec (as_list enrollment_periods)) as Hc.
  destruct (check_categories (as_list enrollment_periods)) as [u|e].
  - destruct (as_list enrollment_periods) as [|current rest] eqn:Hl.
    + exfalso. destruct enrollment_periods; try discriminate.
      simpl in Hl. subst. discriminate.
    + destruct (negb (attending current));
        [destruct (first_attending rest)|]; split; auto.
  - right. destruct Hc as [-> Hc]. repeat split; auto.
Qed.

(** ** More on the cache test and on the shape of the results *)

Lemma get_first_attempt self uri use_cache w session res body :
  _session self = Some session ->
  effective_use_cache (cache_query_requests self) use_cache = false
  \/ truthy (retrieve uri w) = false ->
  server (sent w) (Get (strip "/" uri)) = Response res ->
  raises_for_status res = false ->
  json_body res = Some body ->
  let w1 := {| cache := cache w; sent := sent w ++ [Get (strip "/" uri)];
               sleeps := sleeps w; log := log w |} in
  get self uri use_cache w
  = (Ret body,
     if effective_use_cache (cache_query_requests self) use_cache
     then store uri body (query_cache_timeout_hours self) w1 else w1).
Proof.
  intros Hs Hmiss Hsrv Hst Hj w1. unfold get.
  destruct (effective_use_cache _ _).
  - destruct Hmiss as [?|Hm]; [discriminate|]. rewrite Hm.
    unfold RETRIES. cbn [get_loop]. unfold try_get, http.
    by rewrite Hs, Hsrv, Hst, Hj.
  - unfold RETRIES. cbn [get_loop]. unfold try_get, http.
    by rewrite Hs, Hsrv, Hst, Hj.
Qed.

(** X19.  The cache test is [if cached_value:], so a cached body that is
    falsy (an empty object or list, zero, the empty string) is never
    served: with caching in effect [get] still sends the request, and
    stores what comes back over the old entry. *)
Theorem get_refetches_falsy_cached_body self uri use_cache w session
    cached ttl res body :
  _session self = Some session ->
  effective_use_cache (cache_query_requests self) use_cache = true ->
  cache w !! uri = Some (cached, ttl) ->
  truthy cached = false ->
  server (sent w) (Get (strip "/" uri)) = Response res ->
  raises_for_status res = false ->
  json_body res = Some body ->
  exists w',
    get self uri use_cache w = (Ret body, w')
    /\ sent w' = (sent w ++ [Get (strip "/" uri)])%list
    /\ cache w' !! uri = Some (body, query_cache_timeout_hours self).
Proof.
  intros Hs Hc Hcached Hfalsy Hsrv Hst Hj.
  assert (Hmiss : truthy (retrieve uri w) = false).
  { unfold retrieve. by rewrite Hcached. }
  rewrite (get_first_attempt _ _ _ _ _ _ _ Hs (or_intror Hmiss) Hsrv Hst Hj).
  rewrite Hc. eexists. split; [reflexivity|]. split; [reflexivity|].
  simpl. apply lookup_insert_eq.
Qed.

Lemma get_chunked_loop_shape self base_url query filter :
  forall batches response_list w v w',
    get_chunked_loop self base_url query filter batches response_list w
      = (Ret v, w') ->
    v = JNull \/ exists rs, v = JArr (response_list ++ rs).
Proof.
  induction batches as [|list_chunk rest IH]; intros response_list w v w' H.
  - inversion H; subst. right. exists []. by rewrite app_nil_r.
  - cbn [get_chunked_loop] in H.
    destruct (get self _ None w) as [[response|e] w1]; [|discriminate].
    destruct (negb (truthy response)); [inversion H; auto|].
    destruct (subscript response "value") as [value|]; [|discriminate].
    destruct (py_iter value) as [items|]; [|discriminate].
    destruct (IH _ _ _ _ H) as [?|[rs ->]]; [auto|].
    right. exists (items ++ rs)%list. by rewrite app_assoc.
Qed.

(** X20.  Whenever [get_chunked] returns, what it returns is [None] or a
    bare list: unlike [get_paged] it does not wrap the records in a
    [{'value': ...}] dictionary, so indexing its result with [['value']]
    raises [TypeError] in every case. *)
Theorem get_chunked_returns_list_or_None self url filter to_chunk_list
    chunk_size w :
  match get_chunked self url filter to_chunk_list chunk_size w with
  | (Ret v, _) =>
      (v = JNull \/ exists rs, v = JArr rs)
      /\ subscript v "value" = Raise TypeError
  | (Raise _, _) => True
  end.
Proof.
  destruct (get_chunked self url filter to_chunk_list chunk_size w)
    as [[v|e] w'] eqn:H; [|exact I].
  assert (Hv : v = JNull \/ exists rs, v = JArr rs).
  { unfold get_chunked in H.
    destruct (urlparse url); [|discriminate].
    destruct (parse_query a); [|discriminate].
    destruct (chunk to_chunk_list chunk_size); [|discriminate].
    destruct (get_chunked_loop_shape _ _ _ _ _ _ _ _ _ H) as [?|[rs ->]];
      eauto. }
  split; [exact Hv|]. by destruct Hv as [->|[rs ->]].
Qed.

(** X21.  When the [get] of a batch returns [None], [get_chunked] returns
    [None] at once: the world it leaves is the one right after that [get],
    so no later batch is requested, and the records of the batches before
    are dropped. *)
Theorem get_chunked_stops_at_failed_batch self url filter to_chunk_list
    chunk_size parsed_url query done list_chunk rest bodies recs w w1 w2 :
  urlparse url = Ret parsed_url ->
  parse_query parsed_url = Ret query ->
  chunk to_chunk_list chunk_size = Ret (done ++ list_chunk :: rest)%list ->
  answered self (map (chunk_uri (base_url_of parsed_url) query filter) done)
    bodies w w1 ->
  Forall2 carries bodies recs ->
  get self (chunk_uri (base_url_of parsed_url) query filter list_chunk) None w1
    = (Ret JNull, w2) ->
  get_chunked self url filter to_chunk_list chunk_size w = (Ret JNull, w2).
Proof.
  intros Hparse Hquery Hchunk Hans Hrecs Hget.
  unfold get_chunked. rewrite Hparse, Hquery, Hchunk.
  rewrite (get_chunked_loop_prefix _ _ _ _ _ _ _ _ [] _ _ Hans Hrecs).
  cbn [get_chunked_loop]. by rewrite Hget.
Qed.


(** X22.  The retry: with a session in place and no cache hit, when the
    first attempt fails in any way and the second is answered with a body
    that decodes, [get] returns that body.  It has sent the same request
    twice with one sleep of [SLEEP_TIME] in between, and has stored the body
    when caching is in effect. *)
Theorem get_succeeds_on_retry self uri use_cache w session res body :
  _session self = Some session ->
  effective_use_cache (cache_query_requests self) use_cache = false
  \/ truthy (retrieve uri w) = false ->
  failing (server (sent w) (Get (strip "/" uri))) ->
  server (sent w ++ [Get (strip "/" uri)])%list (Get (strip "/" uri))
    = Response res ->
  raises_for_status res = false ->
  json_body res = Some body ->
  exists w',
    get self uri use_cache w = (Ret body, w')
    /\ sent w' = (sent w ++ [Get (strip "/" uri); Get (strip "/" uri)])%list
    /\ sleeps w' = (sleeps w ++ [SLEEP_TIME])%list
    /\ cache w'
       = if effective_use_cache (cache_query_requests self) use_cache
         then <[uri := (body, query_cache_timeout_hours self)]> (cache w)
         else cache w.
Proof.
  intros Hs Hmiss Hfirst Hsecond Hst Hj.
  set (c := effective_use_cache (cache_query_requests self) use_cache) in *.
  set (rq := Get (strip "/" uri)) in *.
  assert (Hget : get self uri use_cache w = get_loop self uri c RETRIES w).
  { unfold get. fold c. destruct c; [|reflexivity].
    destruct Hmiss as [?|Hm]; [discriminate|]. by rewrite Hm. }
  rewrite Hget.
  assert (Hretry : forall w1,
    sent w1 = (sent w ++ [rq])%list -> sleeps w1 = sleeps w -> cache w1 = cache w ->
    exists w',
      get_loop self uri c 0
        (sleep SLEEP_TIME
           (logger INFO
              [Text ("GET request failed. Retrying after "
                     ++ str_Z SLEEP_TIME ++ " seconds...")] w1))
      = (Ret body, w')
      /\ sent w' = (sent w ++ [rq; rq])%list
      /\ sleeps w' = (sleeps w ++ [SLEEP_TIME])%list
      /\ cache w'
         = if c then <[uri := (body, query_cache_timeout_hours self)]> (cache w)
           else cache w).
  { intros w1 Hsent Hsl Hca. cbn [get_loop]. unfold try_get. rewrite Hs.
    unfold http. cbn [sent sleep logger]. fold rq.
    rewrite Hsent, Hsecond, Hst, Hj.
    eexists. split; [reflexivity|].
    destruct c; simpl; rewrite Hsl, Hca, <- app_assoc; repeat split. }
  unfold RETRIES. cbn [get_loop]. unfold try_get at 1. rewrite Hs.
  unfold http. fold rq.
  destruct (server (sent w) rq) as [res1|f]; simpl in Hfirst.
  - destruct (raises_for_status res1) eqn:Hr.
    + cbv beta iota. apply Hretry; reflexivity.
    + destruct Hfirst as [?|Hj1]; [discriminate|]. rewrite Hj1.
      cbv beta iota. apply Hretry; reflexivity.
  - cbv beta iota. apply Hretry; reflexivity.
Qed.

End Network.

(** ** The claims on concrete runs *)

(** C1.  The code at the input the claim singles out: the instance flag is
    set and the call passes [use_cache=False].  Caching is nevertheless in
    effect: a warm cache is read, the cached body is returned although the
    server is down, and on a cold cache the fetched body is stored. *)
Theorem get_ignores_explicit_false_override :
  effective_use_cache true (Some false) = true
  /\ get server_down (caching alice) students_url (Some false) warm
     = (Ret (page [JNum 7] 1), warm)
  /\ retrieve students_url
       (snd (get server_up (caching alice) students_url (Some false) blank))
     = page [JNum 1] 1.
Proof. repeat split; vm_compute; reflexivity. Qed.

(** C6.  The code when both attempts are refused with status 403 and a body
    that is not JSON.  [get] logs the permission hint naming the principal
    and returns [None]; [post] raises, but what it raises is the
    [JSONDecodeError] of the log line that formats [res.json()], not the
    [RuntimeError], and the permission hint is never logged.  With a JSON
    body the same [post] does raise the [RuntimeError]. *)
Theorem post_forbidden_html_raises_decode_error :
  fst (get server_forbidden alice students_url None blank) = Ret JNull
  /\ last (log (snd (get server_forbidden alice students_url None blank)))
     = Some (ERROR, [Text "Unauthorized. Ensure '"; Text "alice";
                     Text "' has CNS permissions and the password in config.ini is correct"])
  /\ fst (post server_forbidden alice "https://host/api/" "run" (JObj []) JNull blank)
     = Raise JSONDecodeError
  /\ ~ In (ERROR, unauthorized alice)
         (log (snd (post server_forbidden alice "https://host/api/" "run"
                      (JObj []) JNull blank)))
  /\ fst (post server_forbidden_json alice "https://host/api/" "run"
            (JObj []) JNull blank)
     = Raise (RuntimeError "Access was denied").
Proof.
  repeat split; try (vm_compute; reflexivity).
  vm_compute. intros [H|[H|[H|[]]]]; discriminate.
Qed.

(** C9, the claim as stated fails: caching is in effect, nothing expires,
    the first call succeeds and the second is served from the cache, yet two
    requests went out, because the first attempt timed out and was retried. *)
Lemma get_twice_sends_two_requests :
  let first := get server_slow_start (caching alice) students_url None blank in
  let second := get server_slow_start (caching alice) students_url None (snd first) in
  effective_use_cache (cache_query_requests (caching alice)) None = true
  /\ fst first = Ret (page [JNum 1] 1)
  /\ fst second = Ret (page [JNum 1] 1)
  /\ length (sent (snd second)) = 2%nat
  /\ ~ (length (sent (snd second)) <= 1)%nat.
Proof.
  cbv zeta. repeat split; try (vm_compute; reflexivity).
  vm_compute. lia.
Qed.

Lemma get_second_call_served_from_cache_witness :
  let w1 := snd (get server_up (caching alice) students_url None blank) in
  retrieve students_url w1 = page [JNum 1] 1
  /\ get server_up (caching alice) students_url None w1 = (Ret (page [JNum 1] 1), w1)
  /\ (length (sent w1) <= length (sent blank) + 1 + RETRIES)%nat
  /\ (forall res,
        server_up (sent blank) (Get (strip "/" students_url)) = Response res ->
        raises_for_status res = false -> json_body res <> None ->
        (length (sent w1) <= length (sent blank) + 1)%nat).
Proof.
  cbv zeta.
  apply (get_second_call_served_from_cache server_up (caching alice)
           students_url None blank (page [JNum 1] 1)).
  - reflexivity.
  - vm_compute. reflexivity.
  - reflexivity.
Defined.

(** C2, the claim as stated fails: every page request succeeds, the first
    page reports a total of 3 and no page is empty, but the listing has grown
    when the second page is served, and four records come back. *)
Lemma get_paged_overshoots_reported_total :
  let server := listing_server 3 (ok (page [JNum 3; JNum 4] 5)) in
  let run := get_paged server urlparse_basic 3 alice students_url 2 None blank in
  fst (get server alice
         "https://host/ds/odata/Students?$top=2&$skip=0&$count=true" None blank)
    = Ret (page [JNum 1; JNum 2] 3)
  /\ fst <$> run = Some (Ret (envelope [JNum 1; JNum 2; JNum 3; JNum 4]))
  /\ length [JNum 1; JNum 2; JNum 3; JNum 4] <> 3%nat.
Proof. cbv zeta. repeat split; try (vm_compute; reflexivity). simpl. lia. Qed.

Lemma get_paged_returns_all_records_witness :
  let server := listing_server 3 (ok (page [JNum 3] 3)) in
  exists w',
    get_paged server urlparse_basic 3 alice students_url 2 None blank
    = Some (Ret (JObj [("value", JArr [JNum 1; JNum 2; JNum 3])]), w')
    /\ length (sent w') = 2%nat.
Proof.
  cbv zeta.
  destruct (get_paged_returns_all_records
              (listing_server 3 (ok (page [JNum 3] 3))) urlparse_basic
              alice students_url
              {| scheme := "https"; netloc := "host"; path := "/ds/odata/Students";
                 params := ""; query := ""; fragment := "" |}
              2 None 3 (page [JNum 1; JNum 2] 3) [JNum 1; JNum 2]
              [(page [JNum 3] 3, [JNum 3])] blank
              (snd (get (listing_server 3 (ok (page [JNum 3] 3))) alice
                      "https://host/ds/odata/Students?$top=2&$skip=2&$count=true"
                      None
                      (snd (get (listing_server 3 (ok (page [JNum 3] 3))) alice
                              "https://host/ds/odata/Students?$top=2&$skip=0&$count=true"
                              None blank))))
              0) as (Hrun & _ & _).
  - students_pageable.
  - simpl. run_get. split; [reflexivity|]. run_get. split; reflexivity.
  - reflexivity.
  - lia.
  - discriminate.
  - simpl. repeat split; try lia; discriminate.
  - reflexivity.
  - eexists. split; [exact Hrun|]. vm_compute. reflexivity.
Defined.

Lemma get_paged_page_failure_witness :
  let server := listing_server 3 (Fails Refused) in
  exists w',
    get_paged server urlparse_basic 2 alice students_url 2 None blank
    = Some (Ret JNull, w')
    /\ length (sent w') = 3%nat.
Proof.
  cbv zeta. eexists. split.
  - apply (get_paged_page_failure
             (listing_server 3 (Fails Refused)) urlparse_basic
             alice students_url
             {| scheme := "https"; netloc := "host"; path := "/ds/odata/Students";
                params := ""; query := ""; fragment := "" |}
             2 None 3 [(page [JNum 1; JNum 2] 3, [JNum 1; JNum 2])] blank
             (snd (get (listing_server 3 (Fails Refused)) alice
                     "https://host/ds/odata/Students?$top=2&$skip=0&$count=true"
                     None blank))
             _ 0).
    + students_pageable.
    + simpl. repeat split; [discriminate|lia].
    + simpl. run_get. split; reflexivity.
    + reflexivity.
    + vm_compute. reflexivity.
  - vm_compute. reflexivity.
Defined.

Lemma get_paged_stops_on_empty_page_witness :
  let server := listing_server 5 (ok (page [] 5)) in
  exists w',
    get_paged server urlparse_basic 2 alice students_url 2 None blank
    = Some (Ret (JObj [("value", JArr [JNum 1; JNum 2])]), w')
    /\ length (sent w') = 2%nat.
Proof.
  cbv zeta. eexists. split.
  - apply (get_paged_stops_on_empty_page
             (listing_server 5 (ok (page [] 5))) urlparse_basic
             alice students_url
             {| scheme := "https"; netloc := "host"; path := "/ds/odata/Students";
                params := ""; query := ""; fragment := "" |}
             2 None 5 [(page [JNum 1; JNum 2] 5, [JNum 1; JNum 2])] blank
             (snd (get (listing_server 5 (ok (page [] 5))) alice
                     "https://host/ds/odata/Students?$top=2&$skip=0&$count=true"
                     None blank))
             (page [] 5) (JArr []) _ 0).
    + students_pageable.
    + simpl. repeat split; [discriminate|lia].
    + simpl. run_get. split; reflexivity.
    + reflexivity.
    + vm_compute. reflexivity.
    + reflexivity.
    + reflexivity.
  - vm_compute. reflexivity.
Defined.

Lemma get_paged_rejects_paging_parameters_witness :
  exists msg w',
    get_paged server_up urlparse_basic 0 alice
      "https://host/ds/odata/Students?$select=Id&$top=5" 100 None blank
    = Some (Raise (ValueError msg), w')
    /\ sent w' = sent blank /\ sleeps w' = sleeps blank /\ cache w' = cache blank.
Proof.
  apply (get_paged_rejects_paging_parameters server_up urlparse_basic 0 alice
           "https://host/ds/odata/Students?$select=Id&$top=5"
           {| scheme := "https"; netloc := "host"; path := "/ds/odata/Students";
              params := ""; query := "$select=Id&$top=5"; fragment := "" |}).
  - reflexivity.
  - left. exists "5". simpl. auto.
Defined.

(** C5, the claim as stated fails: the query string of the URL contains
    [$filter=IsActive], and a second [$filter] after it.  The dictionary
    built by [parse_query] keeps one entry per name, at the place of the
    first piece with the value of the last, so the request of the batch
    carries [(IsDeleted) and (D)] and [(IsActive) and (D)] nowhere.  In the
    same way a repeated [$select] loses its first value: the other
    parameters are not kept as the URL had them. *)
Lemma get_chunked_repeated_parameter :
  let url :=
    "https://host/ds/odata/Students?$filter=IsActive&$select=Id&$filter=IsDeleted" in
  let run := get_chunked server_up urlparse_basic Z str_Z alice url
               "Id eq {}" [1; 2] 20 blank in
  let url' :=
    "https://host/ds/odata/Students?$select=Id&$orderby=Id&$select=Name" in
  let run' := get_chunked server_up urlparse_basic Z str_Z alice url'
                "Id eq {}" [1; 2] 20 blank in
  (exists parsed_url, urlparse_basic url = Ret parsed_url
     /\ In "$filter=IsActive" (split "&" (query parsed_url)))
  /\ sent (snd run)
     = [Get "https://host/ds/odata/Students?$filter=(IsDeleted) and (Id eq 1 or Id eq 2)&$select=Id"]
  /\ ~ In "$filter=(IsActive) and (Id eq 1 or Id eq 2)"
         (concat (map parameters_sent (sent (snd run))))
  /\ sent (snd run')
     = [Get "https://host/ds/odata/Students?$select=Name&$orderby=Id&$filter=Id eq 1 or Id eq 2"]
  /\ ~ In "$select=Id" (concat (map parameters_sent (sent (snd run')))).
Proof.
  cbv zeta. split; [|split; [|split; [|split]]].
  - eexists. split; [vm_compute; reflexivity|]. vm_compute. auto.
  - vm_compute. reflexivity.
  - vm_compute. intros [H|[H|[]]]; discriminate.
  - vm_compute. reflexivity.
  - vm_compute. intros [H|[H|[H|[]]]]; discriminate.
Qed.

Lemma get_chunked_merges_filter_witness :
  (exists w2,
     get_chunked server_up urlparse_basic Z str_Z alice
       "https://host/ds/odata/Students?$select=Id&$filter=IsActive&$expand=Terms"
       "Id eq {}" [1; 2; 3] 2 blank
     = (Ret (JArr [JNum 1; JNum 1]), w2)
     /\ sent w2
        = [Get "https://host/ds/odata/Students?$select=Id&$filter=(IsActive) and (Id eq 1 or Id eq 2)&$expand=Terms";
           Get "https://host/ds/odata/Students?$select=Id&$filter=(IsActive) and (Id eq 3)&$expand=Terms"])
  /\ (exists w2,
        get_chunked server_down urlparse_basic Z str_Z alice
          "https://host/ds/odata/Students?$select=Id" "Id eq {}" [1; 2] 20 blank
        = (Ret JNull, w2)
        /\ sent w2
           = [Get "https://host/ds/odata/Students?$select=Id&$filter=Id eq 1 or Id eq 2";
              Get "https://host/ds/odata/Students?$select=Id&$filter=Id eq 1 or Id eq 2"]).
Proof.
  split.
  - destruct (get_chunked_merges_filter server_up urlparse_basic Z str_Z alice
                "https://host/ds/odata/Students?$select=Id&$filter=IsActive&$expand=Terms"
                "Id eq {}" [1; 2; 3] 2
                {| scheme := "https"; netloc := "host"; path := "/ds/odata/Students";
                   params := "";
                   query := "$select=Id&$filter=IsActive&$expand=Terms";
                   fragment := "" |}
                [("$select", "Id"); ("$filter", "IsActive"); ("$expand", "Terms")]
                [[1; 2]] [3] []
                [page [JNum 1] 1] [[JNum 1]]
                blank
                (snd (get server_up alice
                        "https://host/ds/odata/Students?$select=Id&$filter=(IsActive) and (Id eq 1 or Id eq 2)&$expand=Terms"
                        None blank))
                "Id eq 3"
                [("$select", "Id"); ("$filter", "(IsActive) and (Id eq 3)");
                 ("$expand", "Terms")]
                "https://host/ds/odata/Students?$select=Id&$filter=(IsActive) and (Id eq 3)&$expand=Terms")
      as (_ & _ & Hcall).
    + reflexivity.
    + reflexivity.
    + repeat constructor.
    + repeat (constructor; [simpl; intuition discriminate|]). constructor.
    + reflexivity.
    + simpl. run_get. reflexivity.
    + repeat constructor.
    + reflexivity.
    + left. exists [("$select", "Id")], "IsActive", [("$expand", "Terms")].
      split; reflexivity.
    + reflexivity.
    + destruct (Hcall (Ret (page [JNum 1] 1))
                  (snd (get server_up alice
                          "https://host/ds/odata/Students?$select=Id&$filter=(IsActive) and (Id eq 3)&$expand=Terms"
                          None
                          (snd (get server_up alice
                                  "https://host/ds/odata/Students?$select=Id&$filter=(IsActive) and (Id eq 1 or Id eq 2)&$expand=Terms"
                                  None blank)))))
        as (_ & _ & Hlast & _); [vm_compute; reflexivity|].
      eexists. split;
        [exact (Hlast (page [JNum 1] 1) [JNum 1] eq_refl eq_refl eq_refl)|].
      vm_compute. reflexivity.
  - destruct (get_chunked_merges_filter server_down urlparse_basic Z str_Z alice
                "https://host/ds/odata/Students?$select=Id"
                "Id eq {}" [1; 2] 20
                {| scheme := "https"; netloc := "host"; path := "/ds/odata/Students";
                   params := ""; query := "$select=Id"; fragment := "" |}
                [("$select", "Id")]
                [] [1; 2] [] [] [] blank blank
                "Id eq 1 or Id eq 2"
                [("$select", "Id"); ("$filter", "Id eq 1 or Id eq 2")]
                "https://host/ds/odata/Students?$select=Id&$filter=Id eq 1 or Id eq 2")
      as (_ & _ & Hcall).
    + reflexivity.
    + reflexivity.
    + repeat constructor.
    + repeat (constructor; [simpl; intuition discriminate|]). constructor.
    + reflexivity.
    + reflexivity.
    + constructor.
    + reflexivity.
    + right. split; reflexivity.
    + reflexivity.
    + destruct (Hcall (Ret JNull)
                  (snd (get server_down alice
                          "https://host/ds/odata/Students?$select=Id&$filter=Id eq 1 or Id eq 2"
                          None blank)))
        as (_ & Hfalsy & _); [vm_compute; reflexivity|].
      eexists. split; [exact (Hfalsy JNull eq_refl eq_refl)|].
      vm_compute. reflexivity.
Defined.

Lemma get_chunked_one_get_per_batch_witness :
  exists w',
    get_chunked server_ids urlparse_basic Z str_Z alice students_url
      "Id eq {}" [1; 2; 3; 4; 5] 2 blank
    = (Ret (JArr [JStr "one"; JStr "two"; JStr "three"; JStr "four"; JStr "five"]),
       w')
    /\ sent w'
       = [Get "https://host/ds/odata/Students?$filter=Id eq 1 or Id eq 2";
          Get "https://host/ds/odata/Students?$filter=Id eq 3 or Id eq 4";
          Get "https://host/ds/odata/Students?$filter=Id eq 5"].
Proof.
  destruct (get_chunked_one_get_per_batch server_ids urlparse_basic Z str_Z
              alice students_url "Id eq {}" [1; 2; 3; 4; 5] 2
              {| scheme := "https"; netloc := "host"; path := "/ds/odata/Students";
                 params := ""; query := ""; fragment := "" |}
              [] [[1; 2]; [3; 4]; [5]]
              [JObj [("value", JArr [JStr "one"; JStr "two"])];
               JObj [("value", JArr [JStr "three"; JStr "four"])];
               JObj [("value", JArr [JStr "five"])]]
              [[JStr "one"; JStr "two"]; [JStr "three"; JStr "four"]; [JStr "five"]]
              blank
              (snd (get_chunked server_ids urlparse_basic Z str_Z alice
                      students_url "Id eq {}" [1; 2; 3; 4; 5] 2 blank)))
    as (Hrun & _).
  - lia.
  - reflexivity.
  - reflexivity.
  - reflexivity.
  - simpl. do 3 run_get. vm_compute. reflexivity.
  - repeat constructor.
  - eexists. split; [exact Hrun|]. vm_compute. reflexivity.
Defined.


(** ** The further properties on concrete runs *)

Lemma client_has_no_session_after_init_witness :
  let self := __init__ "alice" "secret" in
  fst (get server_up self students_url None blank) = Raise AttributeError
  /\ sent (snd (get server_up self students_url None blank)) = sent blank
  /\ sleeps (snd (get server_up self students_url None blank))
     = (sleeps blank ++ [SLEEP_TIME])%list
  /\ fst (post server_up self students_url "run" (JObj []) JNull blank) = Ret JNull
  /\ sent (snd (post server_up self students_url "run" (JObj []) JNull blank))
     = sent blank
  /\ sleeps (snd (post server_up self students_url "run" (JObj []) JNull blank))
     = (sleeps blank ++ [SLEEP_TIME])%list
  /\ _session (auth self "alice" "secret") = Some ("alice", "secret").
Proof.
  apply (client_has_no_session_after_init server_up "alice" "secret"
           students_url None "run" (JObj []) JNull blank).
  discriminate.
Defined.

Lemma get_soft_failure_witness :
  exists w',
    get server_down alice students_url None blank = (Ret JNull, w')
    /\ sent w' = (sent blank ++ [Get (strip "/" students_url);
                                Get (strip "/" students_url)])%list
    /\ sleeps w' = (sleeps blank ++ [SLEEP_TIME])%list
    /\ cache w' = cache blank.
Proof.
  apply (get_soft_failure server_down alice students_url None blank
           ("alice", "secret")).
  - reflexivity.
  - left. reflexivity.
  - exact I.
  - exact I.
Defined.

Lemma unnamed_exception_get_raises_post_returns_witness :
  fst (get server_broken alice students_url None blank)
    = Raise (OtherException "TooManyRedirects")
  /\ fst (post server_broken alice students_url "run" (JObj []) JNull blank)
     = Ret JNull.
Proof.
  apply (unnamed_exception_get_raises_post_returns server_broken alice
           ("alice", "secret") students_url None "run" (JObj []) JNull blank
           "TooManyRedirects").
  - reflexivity.
  - left. reflexivity.
  - reflexivity.
Defined.

Lemma get_paged_ends_after_total_witness :
  is_Some (get_paged (listing_server 3 (ok (page [JNum 3] 3))) urlparse_basic
             5 alice students_url 2 None blank).
Proof.
  apply (get_paged_ends_after_total
           (listing_server 3 (ok (page [JNum 3] 3))) urlparse_basic
           alice students_url
           {| scheme := "https"; netloc := "host"; path := "/ds/odata/Students";
              params := ""; query := ""; fragment := "" |}
           2 None blank (page [JNum 1; JNum 2] 3) [JNum 1; JNum 2]
           (snd (get (listing_server 3 (ok (page [JNum 3] 3))) alice
                   "https://host/ds/odata/Students?$top=2&$skip=0&$count=true"
                   None blank))
           3 0).
  - students_pageable.
  - vm_compute. reflexivity.
  - reflexivity.
  - discriminate.
  - reflexivity.
  - discriminate.
Defined.


Lemma retrievals_leave_cache_witness :
  cache (snd (get_chunked server_ids urlparse_basic Z str_Z alice students_url
                "Id eq {}" [1; 2; 3] 2 warm)) = cache warm
  /\ match get_paged server_ids urlparse_basic 3 alice students_url 2 None warm with
     | Some (_, w') => cache w' = cache warm
     | None => True
     end.
Proof.
  apply (retrievals_leave_cache server_ids urlparse_basic Z str_Z alice
           students_url "Id eq {}" [1; 2; 3] 2 3 2 None warm).
  - reflexivity.
  - discriminate.
Defined.

Lemma get_chunked_degenerate_witness :
  (forall size, size < 0 ->
     get_chunked server_up urlparse_basic Z str_Z alice students_url
       "Id eq {}" [1; 2] size blank = (Ret (JArr []), blank))
  /\ (forall size, size <> 0 ->
        get_chunked server_up urlparse_basic Z str_Z alice students_url
          "Id eq {}" [] size blank = (Ret (JArr []), blank)).
Proof.
  apply (get_chunked_degenerate server_up urlparse_basic Z str_Z alice
           students_url "Id eq {}" [1; 2]
           {| scheme := "https"; netloc := "host"; path := "/ds/odata/Students";
              params := ""; query := ""; fragment := "" |}
           [] blank).
  - reflexivity.
  - reflexivity.
Defined.

Lemma bare_parameter_raises_witness :
  get_paged server_up urlparse_basic 5 alice
    "https://host/ds/odata/Students?flag&$select=Id" 100 None blank
    = Some (Raise (ValueError unpack_message), blank)
  /\ get_chunked server_up urlparse_basic Z str_Z alice
       "https://host/ds/odata/Students?flag&$select=Id" "Id eq {}" [1] 20 blank
     = (Raise (ValueError unpack_message), blank).
Proof.
  apply (bare_parameter_raises server_up urlparse_basic Z str_Z alice
           "https://host/ds/odata/Students?flag&$select=Id"
           {| scheme := "https"; netloc := "host"; path := "/ds/odata/Students";
              params := ""; query := "flag&$select=Id"; fragment := "" |}
           "flag" 5 100 None "Id eq {}" [1] 20 blank).
  - reflexivity.
  - left. reflexivity.
  - discriminate.
  - reflexivity.
Defined.

Lemma parse_query_inverts_build_query_witness :
  parse_query
    {| scheme := "https"; netloc := "host"; path := "/ds/odata/Students";
       params := ""; query := "$select=Id&$filter=Code eq 'a=b'";
       fragment := "" |}
  = Ret [("$select", "Id"); ("$filter", "Code eq 'a=b'")].
Proof.
  apply (parse_query_inverts_build_query
           {| scheme := "https"; netloc := "host"; path := "/ds/odata/Students";
              params := ""; query := "$select=Id&$filter=Code eq 'a=b'";
              fragment := "" |}
           [("$select", "Id"); ("$filter", "Code eq 'a=b'")]).
  - reflexivity.
  - constructor; [intros [H|[]]; discriminate|].
    constructor; [intros []|constructor].
  - repeat constructor.
Defined.

Lemma get_current_attending_enrollment_choice_witness :
  exists before after,
    as_list (JArr [enrollment 1 "E"; enrollment 2 "Y"; enrollment 3 "A"])
    = (before ++ enrollment 2 "Y" :: after)%list
    /\ Forall (fun x => attending x = false) before
    /\ (attending (enrollment 2 "Y") = true
        \/ (before = [] /\ Forall (fun x => attending x = false) after)).
Proof.
  apply (get_current_attending_enrollment_choice
           (JArr [enrollment 1 "E"; enrollment 2 "Y"; enrollment 3 "A"])
           (enrollment 2 "Y")).
  vm_compute. reflexivity.
Defined.

Lemma get_refetches_falsy_cached_body_witness :
  exists w',
    get server_up (caching alice) students_url None stale
    = (Ret (page [JNum 1] 1), w')
    /\ sent w' = (sent stale ++ [Get (strip "/" students_url)])%list
    /\ cache w' !! students_url
       = Some (page [JNum 1] 1, query_cache_timeout_hours (caching alice)).
Proof.
  apply (get_refetches_falsy_cached_body server_up (caching alice)
           students_url None stale ("alice", "secret") (JObj []) 48
           {| status_code := 200; content := "";
              json_body := Some (page [JNum 1] 1) |}
           (page [JNum 1] 1)).
  - reflexivity.
  - reflexivity.
  - vm_compute. reflexivity.
  - reflexivity.
  - reflexivity.
  - reflexivity.
  - reflexivity.
Defined.

Lemma get_chunked_stops_at_failed_batch_witness :
  exists w',
    get_chunked server_first_batch_only urlparse_basic Z str_Z alice
      students_url "Id eq {}" [1; 2; 3; 4; 5] 2 blank = (Ret JNull, w')
    /\ sent w'
       = [Get "https://host/ds/odata/Students?$filter=Id eq 1 or Id eq 2";
          Get "https://host/ds/odata/Students?$filter=Id eq 3 or Id eq 4";
          Get "https://host/ds/odata/Students?$filter=Id eq 3 or Id eq 4"].
Proof.
  eexists. split.
  - apply (get_chunked_stops_at_failed_batch server_first_batch_only
             urlparse_basic Z str_Z alice students_url "Id eq {}"
             [1; 2; 3; 4; 5] 2
             {| scheme := "https"; netloc := "host"; path := "/ds/odata/Students";
                params := ""; query := ""; fragment := "" |}
             [] [[1; 2]] [3; 4] [[5]]
             [JObj [("value", JArr [JStr "one"; JStr "two"])]]
             [[JStr "one"; JStr "two"]]
             blank
             (snd (get server_first_batch_only alice
                     "https://host/ds/odata/Students?$filter=Id eq 1 or Id eq 2"
                     None blank))).
    + reflexivity.
    + reflexivity.
    + reflexivity.
    + simpl. run_get. reflexivity.
    + repeat constructor.
    + vm_compute. reflexivity.
  - vm_compute. reflexivity.
Defined.

Lemma get_succeeds_on_retry_witness :
  exists w',
    get server_slow_start (caching alice) students_url None blank
    = (Ret (page [JNum 1] 1), w')
    /\ sent w' = (sent blank ++ [Get (strip "/" students_url);
                                Get (strip "/" students_url)])%list
    /\ sleeps w' = (sleeps blank ++ [SLEEP_TIME])%list
    /\ cache w'
       = if effective_use_cache (cache_query_requests (caching alice)) None
         then <[students_url := (page [JNum 1] 1,
                                 query_cache_timeout_hours (caching alice))]>
                (cache blank)
         else cache blank.
Proof.
  apply (get_succeeds_on_retry server_slow_start (caching alice) students_url
           None blank ("alice", "secret")
           {| status_code := 200; content := "";
              json_body := Some (page [JNum 1] 1) |}
           (page [JNum 1] 1)).
  - reflexivity.
  - right. reflexivity.
  - exact I.
  - reflexivity.
  - reflexivity.
  - reflexivity.
Defined.
